(** * Malaysia Crop Production Analytics: the dashboard script [app.py]

  A shallow embedding of the Streamlit script and of the library calls it
  makes (pandas, NumPy, Plotly, Streamlit), followed by the properties of
  its pages.

  Numbers: a float64 is a primitive binary64 float.  What NumPy and pandas
  compute on floats ([np.expm1], [np.log10], the sum of a group) is the
  work of the C library behind them and is not part of the script: these
  three functions are parameters of the embedding (the record [Lib.t]).
  Integers of the [year] column are int64. *)

From Stdlib Require Import ZArith List String Bool Lia Sorted Permutation.
From Stdlib Require Import PrimFloat SpecFloat FloatOps.
From Stdlib Require OrderedTypeEx.
Import ListNotations.

Local Open Scope string_scope.

(** ** Machine numbers *)

Module Int64.

Definition min_int : Z := - 2 ^ 63.
Definition max_int : Z := 2 ^ 63 - 1.

Definition in_range (z : Z) : bool := (min_int <=? z)%Z && (z <=? max_int)%Z.

(** An int64: an integer within the range of 64 bits, two's complement. *)
Record t : Type := mk { to_Z : Z; range : in_range to_Z = true }.

(** What int64 arithmetic keeps of a result: NumPy wraps around. *)
Definition wrap (z : Z) : Z := ((z + 2 ^ 63) mod 2 ^ 64 - 2 ^ 63)%Z.

End Int64.

Module Float64.

(** The float64 nearest to an integer (ties to even), as a C cast gives
    it. *)
Definition of_Z (n : Z) : float :=
  SF2Prim (binary_normalize prec emax n 0 false).

End Float64.

(** ** The numeric library

    The functions of NumPy and pandas on float64 that the script calls.
    Their values come from the platform's C library, so they are taken as
    given. *)

Module Lib.

(** [np_expm1] is [np.expm1] on one float64, [np_log10] is [np.log10] on one
    float64, and [pd_sum] is the sum pandas forms of the values of one
    group, in table order. *)
Record t : Type := Build
  { np_expm1 : float -> float;
    np_log10 : float -> float;
    pd_sum : list float -> float }.

End Lib.

(** ** Python values, exceptions and results *)

Module Py.

(** An exception object: the name of its class (for the private subclasses
    of NumPy and Streamlit, of the public class they derive from) and its
    message. *)
Record exn : Type := Exn { exn_class : string; exn_msg : string }.

Definition IndexError : exn :=
  Exn "IndexError" "index 0 is out of bounds for axis 0 with size 0".
Definition TypeError : exn :=
  Exn "TypeError" "ufunc 'expm1' not supported for the input types".
Definition ValueError_nan : exn :=
  Exn "ValueError" "cannot convert float NaN to integer".
Definition ValueError_length : exn :=
  Exn "ValueError" "All arrays must be of the same length".
Definition ValueError_size : exn :=
  Exn "ValueError"
    "Invalid element(s) received for the 'size' property of scatter.marker".
Definition StreamlitAPIException : exn :=
  Exn "StreamlitAPIException"
    "`min_value` or `max_value` is outside the safe integers of JavaScript".

(** The outcome of evaluating an expression: a value, or a raised
    exception. *)
Inductive result (A : Type) : Type :=
| Ok (a : A)
| Raise (e : exn).
Arguments Ok {A} a.
Arguments Raise {A} e.

(** The scalars that reach the prediction code: floats, ints, strings and
    [None]. *)
Inductive pyval : Type :=
| PFloat (x : float)
| PInt (n : Z)
| PStr (s : string)
| PNone.

(** The float64 a scalar converts to when a ufunc is applied to it.  A
    Python int becomes an int64 or, above that, a uint64, and is then cast;
    an int outside both ranges, a string and [None] become objects, for
    which the ufunc has no loop. *)
Definition as_float (v : pyval) : option float :=
  match v with
  | PFloat x => Some x
  | PInt n =>
      if ((- 2 ^ 63 <=? n) && (n <=? 2 ^ 64 - 1))%Z
      then Some (Float64.of_Z n)
      else None
  | PStr _ => None
  | PNone => None
  end.

(** [seq[0]] on a one-dimensional sequence (list or ndarray). *)
Definition getitem0 (seq : list pyval) : result pyval :=
  match seq with
  | [] => Raise IndexError
  | v :: _ => Ok v
  end.

(** [int(x)] where [x] is a pandas reduction result: [None] stands for
    the [nan] that [min]/[max] give on an empty column. *)
Definition int (x : option Z) : result Z :=
  match x with
  | Some n => Ok n
  | None => Raise ValueError_nan
  end.

Fixpoint insort (x : string) (l : list string) : list string :=
  match l with
  | [] => [x]
  | y :: l' => if String.leb x y then x :: l else y :: insort x l'
  end.

(** [sorted(xs)] on strings: ascending in the order of [str], which is the
    byte order of the UTF-8 encoding. *)
Definition sorted (l : list string) : list string :=
  fold_right insort [] l.

End Py.

(** ** NumPy *)

Module np.
Import Py.

(** [np.expm1(v)] on a scalar: a numeric scalar is converted to float64 and
    handed to the library function, anything else has no ufunc loop. *)
Definition expm1 (lib : Lib.t) (v : pyval) : result float :=
  match as_float v with
  | Some x => Ok (Lib.np_expm1 lib x)
  | None => Raise TypeError
  end.

End np.

(** ** pandas *)

Module pd.
Import Py.

(** One row of [data/final_crop.csv]; [year] is an int64 column,
    [production] a float64 column. *)
Module CropRecord.
Record t : Type := Build
  { state : string; crop_type : string; year_i64 : Int64.t;
    production : float }.
Definition year (r : t) : Z := Int64.to_Z (year_i64 r).
End CropRecord.

(** One row of [data/state_clusters.csv]. *)
Module ClusterSummary.
Record t : Type := Build
  { state : string; avg_production : float; growth_rate : float;
    variability : float; cluster_label : string }.
End ClusterSummary.

(** A frame built from a dict of columns: the columns in insertion order,
    each with its name and its values. *)
Definition DataFrame : Type := list (string * list pyval).

Definition columns (d : DataFrame) : list string := map fst d.

Definition nrows (d : DataFrame) : nat :=
  match d with
  | [] => 0
  | (_, vs) :: _ => List.length vs
  end.

Fixpoint column (name : string) (d : DataFrame) : option (list pyval) :=
  match d with
  | [] => None
  | (k, vs) :: d' => if String.eqb k name then Some vs else column name d'
  end.

(** [pd.DataFrame({...})]: all columns must have one length. *)
Definition DataFrame_of_dict (cols : list (string * list pyval))
  : result DataFrame :=
  match cols with
  | [] => Ok []
  | (_, vs) :: rest =>
      if forallb (fun c => Nat.eqb (List.length (snd c)) (List.length vs)) rest
      then Ok cols
      else Raise ValueError_length
  end.

(** [Series.unique()]: the distinct values in order of first appearance. *)
Fixpoint unique (l : list string) : list string :=
  match l with
  | [] => []
  | x :: l' => x :: filter (fun y => negb (String.eqb x y)) (unique l')
  end.

(** [Series.min()] and [Series.max()] on an integer column; [None] is the
    [nan] of an empty column. *)
Definition min (l : list Z) : option Z :=
  match l with
  | [] => None
  | x :: l' => Some (fold_left Z.min l' x)
  end.

Definition max (l : list Z) : option Z :=
  match l with
  | [] => None
  | x :: l' => Some (fold_left Z.max l' x)
  end.

(** [df.groupby(key)[value].sum().reset_index()]: one row per distinct key,
    in ascending key order, with the library's sum of the group's values
    taken in table order. *)
Definition groupby_sum (lib : Lib.t) (rows : list (string * float))
  : list (string * float) :=
  map (fun k =>
         (k, Lib.pd_sum lib
               (map snd (filter (fun r => String.eqb (fst r) k) rows))))
      (sorted (unique (map fst rows))).

End pd.

(** ** Streamlit widgets

    A widget call returns the widget's current value.  What the user did
    with the widget is an argument of the function here: [None] when the
    widget was left untouched. *)

Module st.
Import Py.

(** [st.selectbox(label, options)]: the selected option, initially the first
    one; [None] when there are no options.  The user picks by position. *)
Definition selectbox (options : list string) (picked : option nat) : pyval :=
  match options with
  | [] => PNone
  | first :: _ =>
      match picked with
      | Some i => PStr (nth i options first)
      | None => PStr first
      end
  end.

(** The bounds the slider really has.  Streamlit (elements/widgets/slider.py)
    does not reject a default [value] outside [min_value, max_value]; it
    widens the bounds: "Ensure that min <= value(s) <= max, adjusting the
    bounds as necessary." *)
Definition slider_bounds (min_value max_value value : Z) : Z * Z :=
  let min_value := Z.min min_value max_value in
  let max_value := Z.max min_value max_value in
  let min_value := Z.min value min_value in
  let max_value := Z.max value max_value in
  (min_value, max_value).

(** The integers JavaScript represents exactly. *)
Definition js_safe (n : Z) : bool :=
  ((- (2 ^ 53 - 1) <=? n) && (n <=? 2 ^ 53 - 1))%Z.

(** [st.slider(label, min_value, max_value, value)] on integers.  The
    widened bounds must be safe integers of JavaScript, else the call
    raises.  The widget then returns [value] until the user moves the
    handle, and afterwards the position of the handle, which it keeps
    within its bounds.  Line 162 only gives bounds in reversed order after
    an int64 wrap-around, and then the lower one is not a safe integer. *)
Definition slider (min_value max_value value : Z) (moved_to : option Z)
  : result Z :=
  let '(lo, hi) := slider_bounds min_value max_value value in
  if js_safe lo && js_safe hi
  then Ok (match moved_to with
           | Some v => if ((lo <=? v) && (v <=? hi))%Z then v else value
           | None => value
           end)
  else Raise StreamlitAPIException.

End st.

(** ** Plotly Express *)

Module px.
Import Py.

(** [px.scatter(..., size=column)]: a marker size must be a number that is
    not negative; a negative or [nan] size makes the call raise. *)
Definition scatter (rows : list pd.ClusterSummary.t)
  : result (list pd.ClusterSummary.t) :=
  if forallb (fun r => PrimFloat.leb 0 (pd.ClusterSummary.variability r)) rows
  then Ok rows
  else Raise ValueError_size.

End px.

(** ** The script [app.py] *)

Module app.
Import Py.

(** The four entries of the sidebar radio. *)
Inductive Page : Type :=
| PowerBIDashboard
| ExploratoryDataAnalysis
| ClusterInsights
| ProductionPrediction.

(** What one run of the script does to the outside, call by call: the
    elements it renders, with the data handed to them, and the calls it
    makes to the model.  A chart event stands for the Plotly Express call
    and the [st.plotly_chart] that shows its figure, and carries the columns
    the call reads; how Plotly draws them (the bins of the histogram, the
    colours) is not part of the script.  [success] carries the number that
    the f-string of line 178 formats. *)
Inductive event : Type :=
| st_image (path : string)
| st_title (text : string)
| st_markdown (text : string)
| st_radio (label : string) (options : list string)
| st_header (text : string)
| st_subheader (text : string)
| st_iframe (url : string) (width height : Z)
| st_selectbox (label : string) (options : list string)
| st_columns (n : nat)
| st_slider (label : string) (min_value max_value value : Z)
| st_button (label : string)
| line_chart (rows : list (Z * float * string))
| histogram (x : list float) (nbins : nat)
| scatter (rows : list pd.ClusterSummary.t)
| predict_call (rows : pd.DataFrame)
| success (value : float)
| caption (text : string).

(** The frames the model was called with, and the values shown as
    predicted production, in the order of a trace. *)
Fixpoint predict_calls (t : list event) : list pd.DataFrame :=
  match t with
  | [] => []
  | predict_call d :: t' => d :: predict_calls t'
  | _ :: t' => predict_calls t'
  end.

Fixpoint successes (t : list event) : list float :=
  match t with
  | [] => []
  | success v :: t' => v :: successes t'
  | _ :: t' => successes t'
  end.

(** What the user did before this run of the script. *)
Record UserInput : Type := Build_UserInput
  { page : Page;
    crop_selection_picked : option nat;
    state_picked : option nat;
    crop_picked : option nat;
    year_moved_to : option Z;
    button : bool }.

Section Script.

(** The unpickled estimator of [model/best_model.pkl] and its [predict]
    method, which gets the frame, may change the estimator and returns a
    sequence or raises. *)
Context {Estimator : Type}.
Variable lib : Lib.t.
Variable predict :
  Estimator -> pd.DataFrame -> Estimator * result (list pyval).

(** The module-level names of the script that the prediction page reads or
    binds, and the trace of events of the run. *)
Record Globals : Type := Build_Globals
  { df : list pd.CropRecord.t;
    cluster_df : list pd.ClusterSummary.t;
    model : Estimator;
    state : option pyval;
    crop : option pyval;
    year : option pyval;
    input_df : option pd.DataFrame;
    log_prediction : option (list pyval);
    prediction : option float;
    trace : list event }.

(** The names after lines 30-32: the two tables and the model are loaded,
    nothing else is bound yet. *)
Definition loaded (data : list pd.CropRecord.t)
  (clusters : list pd.ClusterSummary.t) (estimator : Estimator) : Globals :=
  Build_Globals data clusters estimator None None None None None None [].

Definition set_model (m : Estimator) (g : Globals) : Globals :=
  Build_Globals (df g) (cluster_df g) m (state g) (crop g) (year g)
    (input_df g) (log_prediction g) (prediction g) (trace g).
Definition set_state (v : pyval) (g : Globals) : Globals :=
  Build_Globals (df g) (cluster_df g) (model g) (Some v) (crop g) (year g)
    (input_df g) (log_prediction g) (prediction g) (trace g).
Definition set_crop (v : pyval) (g : Globals) : Globals :=
  Build_Globals (df g) (cluster_df g) (model g) (state g) (Some v) (year g)
    (input_df g) (log_prediction g) (prediction g) (trace g).
Definition set_year (v : pyval) (g : Globals) : Globals :=
  Build_Globals (df g) (cluster_df g) (model g) (state g) (crop g) (Some v)
    (input_df g) (log_prediction g) (prediction g) (trace g).
Definition set_input_df (d : pd.DataFrame) (g : Globals) : Globals :=
  Build_Globals (df g) (cluster_df g) (model g) (state g) (crop g) (year g)
    (Some d) (log_prediction g) (prediction g) (trace g).
Definition set_log_prediction (l : list pyval) (g : Globals) : Globals :=
  Build_Globals (df g) (cluster_df g) (model g) (state g) (crop g) (year g)
    (input_df g) (Some l) (prediction g) (trace g).
Definition set_prediction (p : float) (g : Globals) : Globals :=
  Build_Globals (df g) (cluster_df g) (model g) (state g) (crop g) (year g)
    (input_df g) (log_prediction g) (Some p) (trace g).
Definition add_event (e : event) (g : Globals) : Globals :=
  Build_Globals (df g) (cluster_df g) (model g) (state g) (crop g) (year g)
    (input_df g) (log_prediction g) (prediction g) (trace g ++ [e]).

(** Statements: they change the globals and finish normally or raise; what
    was bound before the exception stays bound.  A page first reads the
    globals: the tables it then uses are those, since no statement changes
    them. *)
Definition M (A : Type) : Type := Globals -> Globals * result A.

Definition ret {A : Type} (a : A) : M A := fun g => (g, Ok a).

Definition bind {A B : Type} (c : M A) (k : A -> M B) : M B :=
  fun g =>
    match c g with
    | (g', Ok a) => k a g'
    | (g', Raise e) => (g', Raise e)
    end.

Definition eval {A : Type} (r : result A) : M A := fun g => (g, r).
Definition read : M Globals := fun g => (g, Ok g).
Definition assign (f : Globals -> Globals) : M unit := fun g => (f g, Ok tt).
Definition emit (e : event) : M unit := assign (add_event e).

Notation "x <- c ;; k" := (bind c (fun x => k))
  (at level 61, c at next level, right associativity).
Notation "c ;;; k" := (bind c (fun _ => k))
  (at level 61, right associativity).

(** [model.predict(d)] *)
Definition model_predict (d : pd.DataFrame) : M (list pyval) :=
  fun g =>
    let '(m', r) := predict (model g) d in
    (set_model m' (add_event (predict_call d) g), r).

(** *** Page 4, lines 164-180: the body of [if st.button("Predict Production")] *)
Definition input_columns (state crop year : pyval)
  : list (string * list pyval) :=
  [("state", [state]); ("crop_type", [crop]); ("year", [year])].

Definition predict_production (state crop year : pyval) : M unit :=
  d <- eval (pd.DataFrame_of_dict (input_columns state crop year)) ;;
  assign (set_input_df d) ;;;
  l <- model_predict d ;;
  assign (set_log_prediction l) ;;;
  y_log <- eval (getitem0 l) ;;
  p <- eval (np.expm1 lib y_log) ;;
  assign (set_prediction p) ;;;
  emit (success p) ;;;
  emit (caption
    "Prediction converted back from log scale to actual production value.").

(** *** Page 4, lines 144-162: the heading and the three widgets *)
Definition state_options (g : Globals) : list string :=
  sorted (pd.unique (map pd.CropRecord.state (df g))).
Definition crop_options (g : Globals) : list string :=
  sorted (pd.unique (map pd.CropRecord.crop_type (df g))).

(** [int(df["year"].min())] *)
Definition year_min (g : Globals) : result Z :=
  int (pd.min (map pd.CropRecord.year (df g))).

(** [int(df["year"].max()+3)]: the sum is an int64 sum. *)
Definition year_max (g : Globals) : result Z :=
  int (option_map (fun m => Int64.wrap (m + 3))
         (pd.max (map pd.CropRecord.year (df g)))).

(** Lines 144-162: up to the slider; the values of the three widgets. *)
Definition prediction_widgets (u : UserInput) : M (pyval * pyval * pyval) :=
  g <- read ;;
  emit (st_header "Crop Production Prediction (Random Forest Model)") ;;;
  emit (st_markdown "
    Model trained using log-transformed production values  
    Final model selected based on lowest RMSE and highest R².
    ") ;;;
  emit (st_columns 3) ;;;
  emit (st_selectbox "State" (state_options g)) ;;;
  let state := st.selectbox (state_options g) (state_picked u) in
  assign (set_state state) ;;;
  emit (st_selectbox "Crop Type" (crop_options g)) ;;;
  let crop := st.selectbox (crop_options g) (crop_picked u) in
  assign (set_crop crop) ;;;
  lo <- eval (year_min g) ;;
  hi <- eval (year_max g) ;;
  year <- eval (st.slider lo hi 2023 (year_moved_to u)) ;;
  emit (st_slider "Year" lo hi 2023) ;;;
  assign (set_year (PInt year)) ;;;
  ret (state, crop, PInt year).

Definition production_prediction (u : UserInput) : M unit :=
  request <- prediction_widgets u ;;
  emit (st_button "Predict Production") ;;;
  if button u
  then predict_production (fst (fst request)) (snd (fst request)) (snd request)
  else ret tt.

(** *** Page 2, lines 74-113: the two charts *)

(** [df[df["crop_type"] == crop_selection]] *)
Definition filtered (data : list pd.CropRecord.t) (crop_selection : pyval)
  : list pd.CropRecord.t :=
  filter (fun r =>
            match crop_selection with
            | PStr c => String.eqb (pd.CropRecord.crop_type r) c
            | _ => false
            end) data.

(** [np.log10(filtered["production"] + 1)] *)
Definition log_production (rows : list pd.CropRecord.t) : list float :=
  map (fun r => Lib.np_log10 lib (pd.CropRecord.production r + 1)%float) rows.

(** [df.groupby("state")["production"].sum().reset_index()] *)
Definition state_total (data : list pd.CropRecord.t) : list (string * float) :=
  pd.groupby_sum lib
    (map (fun r => (pd.CropRecord.state r, pd.CropRecord.production r)) data).

(** [np.log10(state_total["production"] + 1)] *)
Definition log_total (totals : list (string * float)) : list float :=
  map (fun t => Lib.np_log10 lib (snd t + 1)%float) totals.

Definition exploratory_data_analysis (u : UserInput) : M unit :=
  g <- read ;;
  emit (st_header "Production Trend Analysis") ;;;
  emit (st_selectbox "Select Crop Type" (crop_options g)) ;;;
  let crop_selection :=
    st.selectbox (crop_options g) (crop_selection_picked u) in
  let rows := filtered (df g) crop_selection in
  emit (line_chart
          (combine (combine (map pd.CropRecord.year rows) (log_production rows))
                   (map pd.CropRecord.state rows))) ;;;
  emit (st_subheader "Distribution of Total Production by State") ;;;
  emit (histogram (log_total (state_total (df g))) 10) ;;;
  emit (caption
    "Log scale used due to high production skewness (billions vs thousands).").

(** *** Page 1, lines 59-69 *)
Definition power_bi_url : string :=
  "https://app.powerbi.com/view?r=eyJrIjoiYWYzOTk5NjctNTI4Mi00MGU3LTg1Y2MtYjY3YTg4YzNlNGY0IiwidCI6ImE2M2JiMWE5LTQ4YzItNDQ4Yi04NjkzLTMzMTdiMDBjYTdmYiIsImMiOjEwfQ%3D%3D".

Definition power_bi_dashboard : M unit :=
  emit (st_header "Interactive Power BI Dashboard") ;;;
  emit (st_iframe power_bi_url 1200 800).

(** *** Page 3, lines 118-139 *)
Definition cluster_insights : M unit :=
  g <- read ;;
  emit (st_header "State Clustering by Agricultural Profile") ;;;
  rows <- eval (px.scatter (cluster_df g)) ;;
  emit (scatter rows) ;;;
  emit (st_markdown "
    ### Cluster Interpretation
    - **Cluster 0**: Flower Specialized  
    - **Cluster 1**: Mixed Crop  
    - **Cluster 2**: Flower + Rice focused
    ").

(** *** Lines 56-144: the page selected in the sidebar *)
Definition run (u : UserInput) : M unit :=
  match page u with
  | PowerBIDashboard => power_bi_dashboard
  | ExploratoryDataAnalysis => exploratory_data_analysis u
  | ClusterInsights => cluster_insights
  | ProductionPrediction => production_prediction u
  end.

(** *** Lines 37-54: the header and the sidebar *)
Definition page_options : list string :=
  ["📊 Power BI Dashboard"; "📈 Exploratory Data Analysis";
   "🧠 Cluster Insights"; "🤖 Production Prediction"].

Definition header (image_file : result unit) : M unit :=
  eval image_file ;;;
  emit (st_image "assets/Header.png") ;;;
  emit (st_title "Malaysia Crop Production Analytics") ;;;
  emit (st_markdown
    "Exploratory Analysis • State Clustering • Machine Learning Prediction") ;;;
  emit (st_radio "Navigate" page_options).

End Script.

Arguments Globals : clear implicits.
Arguments M : clear implicits.

End app.

(** ** The start of the script, lines 18-32, and the whole run

    [load_data] and [load_clusters] are memoised by [st.cache_data],
    [load_model] by [st.cache_resource]: a first successful call stores its
    result in the cache of the server process, later calls are answered from
    the cache without running the body, and a call that raises stores
    nothing.  [st.cache_data] hands out copies of the stored table;
    [st.cache_resource] hands out the stored object itself, so what
    [predict] does to the estimator stays in the cache. *)

Module script.
Import Py app.

Section Startup.

Context {Estimator : Type}.
Variable lib : Lib.t.
Variable predict :
  Estimator -> pd.DataFrame -> Estimator * result (list pyval).

(** What reading the files gives at the time of a run: the parsed content
    of the two tables and of the pickle, or the exception raised; and for
    the header image the outcome of [st.image] on it: the image is shown,
    or the call raises. *)
Record Disk : Type := Build_Disk
  { final_crop_csv : result (list pd.CropRecord.t);
    state_clusters_csv : result (list pd.ClusterSummary.t);
    best_model_pkl : result Estimator;
    header_png : result unit }.

(** The cache entries of the three loaders. *)
Record Cache : Type := Build_Cache
  { data_entry : option (list pd.CropRecord.t);
    clusters_entry : option (list pd.ClusterSummary.t);
    model_entry : option Estimator }.

Definition empty_cache : Cache := Build_Cache None None None.

(** A call of a memoised function without arguments: the entry afterwards
    and the outcome of the call. *)
Definition cached {A : Type} (entry : option A) (body : result A)
  : option A * result A :=
  match entry with
  | Some v => (entry, Ok v)
  | None =>
      match body with
      | Ok v => (Some v, Ok v)
      | Raise e => (None, Raise e)
      end
  end.

Definition load_data (disk : Disk) (c : Cache)
  : Cache * result (list pd.CropRecord.t) :=
  let '(entry, r) := cached (data_entry c) (final_crop_csv disk) in
  (Build_Cache entry (clusters_entry c) (model_entry c), r).

Definition load_clusters (disk : Disk) (c : Cache)
  : Cache * result (list pd.ClusterSummary.t) :=
  let '(entry, r) := cached (clusters_entry c) (state_clusters_csv disk) in
  (Build_Cache (data_entry c) entry (model_entry c), r).

Definition load_model (disk : Disk) (c : Cache) : Cache * result Estimator :=
  let '(entry, r) := cached (model_entry c) (best_model_pkl disk) in
  (Build_Cache (data_entry c) (clusters_entry c) entry, r).

(** One run of the script: the cache afterwards, the events of the run and
    how the run ended.  Lines 30-32 load the two tables and the model, in
    this order; then come the header and the selected page.
    [st.set_page_config] of lines 10-13 sets the title of the browser tab
    and the layout and shows no element: it has no event. *)
Definition main (disk : Disk) (u : UserInput) (c : Cache)
  : Cache * list event * result unit :=
  match load_data disk c with
  | (c1, Raise e) => (c1, [], Raise e)
  | (c1, Ok data) =>
      match load_clusters disk c1 with
      | (c2, Raise e) => (c2, [], Raise e)
      | (c2, Ok clusters) =>
          match load_model disk c2 with
          | (c3, Raise e) => (c3, [], Raise e)
          | (c3, Ok estimator) =>
              let '(g, r) :=
                bind (header (header_png disk)) (fun _ => run lib predict u)
                     (loaded data clusters estimator) in
              (Build_Cache (data_entry c3) (clusters_entry c3) (Some (model g)),
               trace g, r)
          end
      end
  end.

End Startup.

Arguments Disk : clear implicits.
Arguments Cache : clear implicits.

End script.

(** ** Test doubles and sample data

    Stand-ins for the numeric library, stub models (an estimator without
    state whose [predict] always returns the same sequence, one whose
    [predict] always raises, one that counts its calls and one that keeps
    the frames it was given) and small tables. *)

Module stub.
Import Py.

(** Computable stand-ins: the first-order approximation [expm1 x = x], a
    [log10] that is right at 10, and the sum from left to right. *)
Definition lib : Lib.t :=
  Lib.Build (fun x => x) (fun x => x / 10)%float
    (fun l => fold_left PrimFloat.add l 0%float).

(** The same library with another [log10]. *)
Definition lib_other_log10 : Lib.t :=
  Lib.Build (Lib.np_expm1 lib) (fun x => x) (Lib.pd_sum lib).

Definition returning (ys : list pyval)
  : unit -> pd.DataFrame -> unit * result (list pyval) :=
  fun m _ => (m, Ok ys).

Definition raising (e : exn)
  : unit -> pd.DataFrame -> unit * result (list pyval) :=
  fun m _ => (m, Raise e).

Definition counting (ys : list pyval)
  : nat -> pd.DataFrame -> nat * result (list pyval) :=
  fun calls _ => (S calls, Ok ys).

Definition recording (ys : list pyval)
  : list pd.DataFrame -> pd.DataFrame
    -> list pd.DataFrame * result (list pyval) :=
  fun seen d => (seen ++ [d], Ok ys)%list.

Definition crops_2017_2022 : list pd.CropRecord.t :=
  [ pd.CropRecord.Build "Selangor" "Rice" (Int64.mk 2017 eq_refl) 999;
    pd.CropRecord.Build "Johor" "Flowers" (Int64.mk 2022 eq_refl) 9;
    pd.CropRecord.Build "Selangor" "Flowers" (Int64.mk 2020 eq_refl) 90 ].

Definition crops_2010 : list pd.CropRecord.t :=
  [ pd.CropRecord.Build "Johor" "Rice" (Int64.mk 2010 eq_refl) 9 ].

Definition clusters : list pd.ClusterSummary.t :=
  [ pd.ClusterSummary.Build "Johor" 9 0 1 "Mixed Crop" ].

End stub.

(** * Properties of the script *)

Import Py app.

(** ** The library models *)

Lemma insort_In (x y : string) (l : list string) :
  In y (insort x l) <-> y = x \/ In y l.
Proof.
  induction l as [|z l IH]; simpl.
  - intuition.
  - destruct (String.leb x z); simpl; rewrite ?IH; intuition.
Qed.

Lemma sorted_In (y : string) (l : list string) :
  In y (sorted l) <-> In y l.
Proof.
  unfold sorted.
  induction l as [|x l IH]; simpl; [reflexivity|].
  rewrite insort_In, IH. intuition.
Qed.

Lemma unique_In (y : string) (l : list string) :
  In y (pd.unique l) <-> In y l.
Proof.
  induction l as [|x l IH]; simpl; [reflexivity|].
  rewrite filter_In, IH.
  destruct (String.eqb_spec x y) as [->|Hne]; simpl; intuition congruence.
Qed.

Lemma sorted_nil_inv (l : list string) : sorted l = [] -> l = [].
Proof.
  destruct l as [|x l]; [reflexivity|]; intros H.
  assert (Hin : In x (sorted (x :: l))) by (apply sorted_In; left; reflexivity).
  rewrite H in Hin. destruct Hin.
Qed.

Lemma unique_nil_inv (l : list string) : pd.unique l = [] -> l = [].
Proof. destruct l; [reflexivity | discriminate]. Qed.

(** A select box over a non-empty list returns one of its options. *)
Lemma selectbox_In (options : list string) (picked : option nat) :
  options <> [] ->
  exists s, st.selectbox options picked = PStr s /\ In s options.
Proof.
  destruct options as [|first rest]; [congruence|]; intros _.
  destruct picked as [i|].
  - exists (nth i (first :: rest) first). split; [reflexivity|].
    destruct (Nat.lt_ge_cases i (List.length (first :: rest))) as [Hlt|Hge].
    + now apply nth_In.
    + rewrite nth_overflow by exact Hge. now left.
  - exists first. split; [reflexivity | now left].
Qed.

Lemma fold_left_min_spec (l : list Z) (x : Z) :
  (In (fold_left Z.min l x) (x :: l)) /\
  (forall y, In y (x :: l) -> (fold_left Z.min l x <= y)%Z).
Proof.
  revert x. induction l as [|z l IH]; intros x; simpl.
  - split; [now left | intros y [<-|[]]; lia].
  - destruct (IH (Z.min x z)) as [Hin Hle]. split.
    + destruct Hin as [Heq|Hin]; [|now right; right].
      rewrite <- Heq. destruct (Z.min_spec x z) as [[_ ->]|[_ ->]]; auto.
    + intros y [<-|[<-|Hy]].
      * specialize (Hle (Z.min x z) (or_introl eq_refl)). lia.
      * specialize (Hle (Z.min x z) (or_introl eq_refl)). lia.
      * apply Hle. now right.
Qed.

Lemma fold_left_max_spec (l : list Z) (x : Z) :
  (In (fold_left Z.max l x) (x :: l)) /\
  (forall y, In y (x :: l) -> (y <= fold_left Z.max l x)%Z).
Proof.
  revert x. induction l as [|z l IH]; intros x; simpl.
  - split; [now left | intros y [<-|[]]; lia].
  - destruct (IH (Z.max x z)) as [Hin Hle]. split.
    + destruct Hin as [Heq|Hin]; [|now right; right].
      rewrite <- Heq. destruct (Z.max_spec x z) as [[_ ->]|[_ ->]]; auto.
    + intros y [<-|[<-|Hy]].
      * specialize (Hle (Z.max x z) (or_introl eq_refl)). lia.
      * specialize (Hle (Z.max x z) (or_introl eq_refl)). lia.
      * apply Hle. now right.
Qed.

(** [Series.min()] is the least value of a non-empty column. *)
Lemma pd_min_spec (l : list Z) (m : Z) :
  pd.min l = Some m -> In m l /\ forall y, In y l -> (m <= y)%Z.
Proof.
  destruct l as [|x l]; [discriminate|]; simpl.
  intros [= <-]. apply fold_left_min_spec.
Qed.

Lemma pd_max_spec (l : list Z) (m : Z) :
  pd.max l = Some m -> In m l /\ forall y, In y l -> (y <= m)%Z.
Proof.
  destruct l as [|x l]; [discriminate|]; simpl.
  intros [= <-]. apply fold_left_max_spec.
Qed.

(** ** int64 *)

Lemma int64_range (i : Int64.t) :
  (- 2 ^ 63 <= Int64.to_Z i <= 2 ^ 63 - 1)%Z.
Proof.
  destruct i as [z Hz]. simpl.
  unfold Int64.in_range, Int64.min_int, Int64.max_int in Hz.
  apply andb_true_iff in Hz. destruct Hz as [H1 H2].
  apply Z.leb_le in H1, H2. lia.
Qed.

Lemma wrap_in_range (z : Z) :
  (- 2 ^ 63 <= z <= 2 ^ 63 - 1)%Z -> Int64.wrap z = z.
Proof.
  intros Hz. unfold Int64.wrap.
  rewrite Z.mod_small; lia.
Qed.

Lemma wrap_overflow (z : Z) :
  (2 ^ 63 <= z <= 2 ^ 63 + 2)%Z -> (Int64.wrap z <= - 2 ^ 63 + 2)%Z.
Proof.
  intros Hz. unfold Int64.wrap.
  replace (z + 2 ^ 63)%Z with ((z - 2 ^ 63) + 1 * 2 ^ 64)%Z by lia.
  rewrite Z.mod_add by lia. rewrite Z.mod_small; lia.
Qed.

Lemma year_in_int64 (data : list pd.CropRecord.t) (y : Z) :
  In y (map pd.CropRecord.year data) -> (- 2 ^ 63 <= y <= 2 ^ 63 - 1)%Z.
Proof.
  intros Hin. apply in_map_iff in Hin. destruct Hin as (r & <- & _).
  apply int64_range.
Qed.

(** ** The slider *)

Lemma slider_Ok_inv (min_value max_value value : Z) (moved : option Z)
  (y : Z) :
  st.slider min_value max_value value moved = Ok y ->
  st.js_safe (fst (st.slider_bounds min_value max_value value)) = true /\
  st.js_safe (snd (st.slider_bounds min_value max_value value)) = true.
Proof.
  unfold st.slider.
  destruct (st.slider_bounds min_value max_value value) as [lo hi]. simpl.
  destruct (st.js_safe lo), (st.js_safe hi); simpl; try discriminate.
  now split.
Qed.

(** The slider's value lies within the bounds the slider really has. *)
Lemma slider_within_bounds (min_value max_value value : Z) (moved : option Z)
  (y : Z) :
  st.slider min_value max_value value moved = Ok y ->
  (fst (st.slider_bounds min_value max_value value)
   <= y
   <= snd (st.slider_bounds min_value max_value value))%Z.
Proof.
  unfold st.slider.
  destruct (st.slider_bounds min_value max_value value) as [lo hi] eqn:Hb.
  assert (lo <= value <= hi)%Z
    by (unfold st.slider_bounds in Hb; injection Hb as <- <-; lia).
  simpl. destruct (st.js_safe lo && st.js_safe hi); [|discriminate].
  intros [= <-]. destruct moved as [v|]; [|assumption].
  destruct (lo <=? v)%Z eqn:H1, (v <=? hi)%Z eqn:H2; simpl; try assumption.
  apply Z.leb_le in H1, H2. lia.
Qed.

(** When the default lies between the requested bounds, these are the
    slider's bounds. *)
Lemma slider_bounds_default_inside (min_value max_value value : Z) :
  (min_value <= value <= max_value)%Z ->
  st.slider_bounds min_value max_value value = (min_value, max_value).
Proof. intros H. unfold st.slider_bounds. f_equal; lia. Qed.

(** When the default year 2023 lies between the first observed year and
    the last one plus three, the slider keeps the year between them. *)
Lemma year_within_requested_range (lo hi : Z) (moved : option Z) (y : Z) :
  (lo <= 2023 <= hi)%Z ->
  st.slider lo hi 2023 moved = Ok y ->
  (lo <= y <= hi)%Z.
Proof.
  intros H Hy.
  pose proof (slider_within_bounds lo hi 2023 moved y Hy) as Hb.
  now rewrite (slider_bounds_default_inside lo hi 2023 H) in Hb.
Qed.

Lemma js_safe_spec (n : Z) :
  st.js_safe n = true <-> (- (2 ^ 53 - 1) <= n <= 2 ^ 53 - 1)%Z.
Proof.
  unfold st.js_safe. rewrite andb_true_iff, !Z.leb_le. reflexivity.
Qed.

(** A move of the handle to a year of the requested range is taken as it
    is, whatever the default, when the bounds and the default are safe
    integers. *)
Lemma slider_honours_move (min_value max_value value v : Z) :
  (min_value <= v <= max_value)%Z ->
  st.js_safe min_value = true ->
  st.js_safe max_value = true ->
  st.js_safe value = true ->
  st.slider min_value max_value value (Some v) = Ok v.
Proof.
  intros Hv Hlo Hhi Hval.
  apply js_safe_spec in Hlo, Hhi, Hval.
  unfold st.slider, st.slider_bounds.
  assert (H1 : st.js_safe (Z.min value (Z.min min_value max_value)) = true)
    by (apply js_safe_spec; lia).
  assert (H2 : st.js_safe
                 (Z.max value (Z.max (Z.min min_value max_value) max_value))
               = true) by (apply js_safe_spec; lia).
  rewrite H1, H2. simpl.
  destruct (Z.leb_spec
              (Z.min value (Z.min min_value max_value)) v) as [_|H];
    [|lia].
  destruct (Z.leb_spec v
              (Z.max value
                 (Z.max (Z.min min_value max_value) max_value))) as [_|H];
    [reflexivity | lia].
Qed.

(** ** Traces *)

Lemma predict_calls_app (t1 t2 : list event) :
  predict_calls (t1 ++ t2)%list = (predict_calls t1 ++ predict_calls t2)%list.
Proof.
  induction t1 as [|e t1 IH]; simpl; [reflexivity|].
  destruct e; simpl; now rewrite IH.
Qed.

Lemma successes_app (t1 t2 : list event) :
  successes (t1 ++ t2)%list = (successes t1 ++ successes t2)%list.
Proof.
  induction t1 as [|e t1 IH]; simpl; [reflexivity|].
  destruct e; simpl; now rewrite IH.
Qed.

(** ** The prediction block, case by case *)

Section Block.

Context {Estimator : Type}.
Variable lib : Lib.t.
Variable predict :
  Estimator -> pd.DataFrame -> Estimator * result (list pyval).
Variable g : Globals Estimator.
Variables state crop year : pyval.

Let d : pd.DataFrame := input_columns state crop year.

(** The globals once the frame is bound and [model.predict] has returned
    or raised. *)
Let called : Globals Estimator :=
  set_model (fst (predict (model g) d))
    (add_event (predict_call d) (set_input_df d g)).

Lemma predict_production_raised (e : exn) :
  snd (predict (model g) d) = Raise e ->
  predict_production lib predict state crop year g = (called, Raise e).
Proof.
  unfold called, predict_production, bind, eval, assign, model_predict; simpl.
  fold d. destruct (predict (model g) d) as [m' r]; simpl.
  now intros ->.
Qed.

Lemma predict_production_empty :
  snd (predict (model g) d) = Ok [] ->
  predict_production lib predict state crop year g
  = (set_log_prediction [] called, Raise IndexError).
Proof.
  unfold called, predict_production, bind, eval, assign, model_predict; simpl.
  fold d. destruct (predict (model g) d) as [m' r]; simpl.
  now intros ->.
Qed.

Lemma predict_production_not_numeric (v : pyval) (rest : list pyval) :
  snd (predict (model g) d) = Ok (v :: rest) ->
  as_float v = None ->
  predict_production lib predict state crop year g
  = (set_log_prediction (v :: rest) called, Raise TypeError).
Proof.
  unfold called, predict_production, bind, eval, assign, model_predict; simpl.
  fold d. destruct (predict (model g) d) as [m' r]; simpl.
  intros -> Hv; simpl. unfold np.expm1. now rewrite Hv.
Qed.

Lemma predict_production_numeric (v : pyval) (rest : list pyval) (y : float) :
  snd (predict (model g) d) = Ok (v :: rest) ->
  as_float v = Some y ->
  predict_production lib predict state crop year g
  = (add_event
       (caption
          "Prediction converted back from log scale to actual production value.")
       (add_event (success (Lib.np_expm1 lib y))
          (set_prediction (Lib.np_expm1 lib y)
             (set_log_prediction (v :: rest) called))),
     Ok tt).
Proof.
  unfold called, predict_production, bind, eval, assign, emit, model_predict;
    simpl.
  fold d. destruct (predict (model g) d) as [m' r]; simpl.
  intros -> Hv; simpl. unfold np.expm1. now rewrite Hv.
Qed.

(** The four cases are all there are. *)
Lemma predict_cases :
  (exists e, snd (predict (model g) d) = Raise e) \/
  snd (predict (model g) d) = Ok [] \/
  (exists v rest, snd (predict (model g) d) = Ok (v :: rest)
                  /\ as_float v = None) \/
  (exists v rest y, snd (predict (model g) d) = Ok (v :: rest)
                    /\ as_float v = Some y).
Proof.
  destruct (snd (predict (model g) d)) as [[|v rest]|e].
  - right; left; reflexivity.
  - destruct (as_float v) as [y|] eqn:Hv.
    + right; right; right. now exists v, rest, y.
    + right; right; left. now exists v, rest.
  - left. now exists e.
Qed.

End Block.

(** What the block leaves alone, whatever the model does. *)
Lemma predict_production_frame
  {Estimator : Type} (lib : Lib.t)
  (predict : Estimator -> pd.DataFrame -> Estimator * result (list pyval))
  (g : Globals Estimator) (state crop year : pyval) :
  let out := predict_production lib predict state crop year g in
  df (fst out) = df g /\
  cluster_df (fst out) = cluster_df g /\
  model (fst out) = fst (predict (model g) (input_columns state crop year)) /\
  input_df (fst out) = Some (input_columns state crop year) /\
  predict_calls (trace (fst out))
  = (predict_calls (trace g) ++ [input_columns state crop year])%list.
Proof.
  destruct (predict_cases predict g state crop year)
    as [[e H]|[H|[[v [rest [H Hv]]]|[v [rest [y [H Hv]]]]]]]; simpl.
  - rewrite (predict_production_raised lib _ _ _ _ _ _ H); simpl.
    rewrite predict_calls_app; simpl. now repeat split.
  - rewrite (predict_production_empty lib _ _ _ _ _ H); simpl.
    rewrite predict_calls_app; simpl. now repeat split.
  - rewrite (predict_production_not_numeric lib _ _ _ _ _ _ _ H Hv); simpl.
    rewrite predict_calls_app; simpl. now repeat split.
  - rewrite (predict_production_numeric lib _ _ _ _ _ _ _ _ H Hv); simpl.
    rewrite !predict_calls_app; simpl. rewrite !app_nil_r. now repeat split.
Qed.

(** ** The prediction page *)

Section PredictionPage.

Context {Estimator : Type}.
Variable lib : Lib.t.
Variable predict :
  Estimator -> pd.DataFrame -> Estimator * result (list pyval).
Variable u : UserInput.
Variable g : Globals Estimator.

(** The globals after the heading and the two select boxes. *)
Let boxes : Globals Estimator :=
  set_crop (st.selectbox (crop_options g) (crop_picked u))
    (add_event (st_selectbox "Crop Type" (crop_options g))
       (set_state (st.selectbox (state_options g) (state_picked u))
          (add_event (st_selectbox "State" (state_options g))
             (add_event (st_columns 3)
                (add_event (st_markdown "
    Model trained using log-transformed production values  
    Final model selected based on lowest RMSE and highest R².
    ")
                   (add_event
                      (st_header
                         "Crop Production Prediction (Random Forest Model)")
                      g)))))).

(** The page up to the slider: it stops at the first of the three
    evaluations of line 162 that raises. *)
Lemma prediction_widgets_run :
  prediction_widgets u g
  = match year_min g with
    | Raise e => (boxes, Raise e)
    | Ok lo =>
        match year_max g with
        | Raise e => (boxes, Raise e)
        | Ok hi =>
            match st.slider lo hi 2023 (year_moved_to u) with
            | Raise e => (boxes, Raise e)
            | Ok y =>
                (set_year (PInt y)
                   (add_event (st_slider "Year" lo hi 2023) boxes),
                 Ok (st.selectbox (state_options g) (state_picked u),
                     st.selectbox (crop_options g) (crop_picked u),
                     PInt y))
            end
        end
    end.
Proof.
  unfold boxes, prediction_widgets, bind, read, eval, emit, assign, ret.
  simpl.
  destruct (year_min g) as [lo|e1]; [|reflexivity].
  destruct (year_max g) as [hi|e2]; [|reflexivity].
  destruct (st.slider lo hi 2023 (year_moved_to u)) as [y|e3]; reflexivity.
Qed.

(** The page: the widgets, the button, and the block if it was pressed. *)
Lemma production_prediction_run :
  production_prediction lib predict u g
  = match prediction_widgets u g with
    | (g1, Raise e) => (g1, Raise e)
    | (g1, Ok request) =>
        if button u
        then predict_production lib predict
               (fst (fst request)) (snd (fst request)) (snd request)
               (add_event (st_button "Predict Production") g1)
        else (add_event (st_button "Predict Production") g1, Ok tt)
    end.
Proof.
  unfold production_prediction, bind, emit, assign, ret.
  destruct (prediction_widgets u g) as [g1 [request|e]]; [|reflexivity].
  now destruct (button u).
Qed.

(** What the widgets leave alone. *)
Lemma prediction_widgets_frame :
  let g1 := fst (prediction_widgets u g) in
  df g1 = df g /\ cluster_df g1 = cluster_df g /\ model g1 = model g /\
  input_df g1 = input_df g /\ log_prediction g1 = log_prediction g /\
  prediction g1 = prediction g /\
  predict_calls (trace g1) = predict_calls (trace g) /\
  successes (trace g1) = successes (trace g) /\
  exists new : list event, trace g1 = (trace g ++ new)%list.
Proof.
  rewrite prediction_widgets_run. unfold boxes.
  destruct (year_min g) as [lo|e1];
    [destruct (year_max g) as [hi|e2];
     [destruct (st.slider lo hi 2023 (year_moved_to u)) as [y|e3]|]|];
    simpl;
    rewrite ?predict_calls_app, ?successes_app; simpl;
    rewrite ?app_nil_r;
    repeat (split; [reflexivity|]);
    rewrite <- ?app_assoc; now eexists.
Qed.

End PredictionPage.


Lemma year_bounds_without_data {Estimator : Type} (g : Globals Estimator) :
  df g = [] ->
  year_min g = Raise ValueError_nan /\ year_max g = Raise ValueError_nan.
Proof. unfold year_min, year_max. now intros ->. Qed.

(** The requests one run of the prediction page hands to the model: none
    when line 162 raises or the button was not pressed, else the one built
    from the widgets. *)
Lemma production_prediction_calls
  {Estimator : Type} (lib : Lib.t)
  (predict : Estimator -> pd.DataFrame -> Estimator * result (list pyval))
  (u : UserInput) (g : Globals Estimator) :
  predict_calls (trace (fst (production_prediction lib predict u g)))
  = (predict_calls (trace g) ++
     match year_min g, year_max g with
     | Ok lo, Ok hi =>
         match st.slider lo hi 2023 (year_moved_to u) with
         | Ok y =>
             if button u
             then [input_columns
                     (st.selectbox (state_options g) (state_picked u))
                     (st.selectbox (crop_options g) (crop_picked u))
                     (PInt y)]
             else []
         | Raise _ => []
         end
     | _, _ => []
     end)%list.
Proof.
  rewrite production_prediction_run.
  pose proof (prediction_widgets_frame u g) as Hf. simpl in Hf.
  destruct Hf as (_ & _ & _ & _ & _ & _ & Hcalls & _).
  rewrite prediction_widgets_run in *.
  destruct (year_min g) as [lo|e1];
    [|simpl in *; now rewrite Hcalls, app_nil_r].
  destruct (year_max g) as [hi|e2];
    [|simpl in *; now rewrite Hcalls, app_nil_r].
  destruct (st.slider lo hi 2023 (year_moved_to u)) as [y|e3];
    [|simpl in *; now rewrite Hcalls, app_nil_r].
  cbn [fst snd] in *.
  match type of Hcalls with
  | predict_calls (trace ?G) = _ => set (g1 := G) in *
  end.
  assert (Hbtn : predict_calls
                   (trace (add_event (st_button "Predict Production") g1))
                 = predict_calls (trace g)).
  { cbn [trace add_event]. rewrite predict_calls_app, Hcalls. simpl.
    now rewrite app_nil_r. }
  destruct (button u).
  - destruct (predict_production_frame lib predict
                (add_event (st_button "Predict Production") g1)
                (st.selectbox (state_options g) (state_picked u))
                (st.selectbox (crop_options g) (crop_picked u))
                (PInt y)) as (_ & _ & _ & _ & H).
    rewrite H. now rewrite Hbtn.
  - cbn [fst]. rewrite Hbtn. now rewrite app_nil_r.
Qed.

(** The other pages do not call the model. *)
Lemma other_pages_calls
  {Estimator : Type} (lib : Lib.t)
  (predict : Estimator -> pd.DataFrame -> Estimator * result (list pyval))
  (u : UserInput) (g : Globals Estimator) :
  page u <> ProductionPrediction ->
  predict_calls (trace (fst (run lib predict u g))) = predict_calls (trace g) /\
  model (fst (run lib predict u g)) = model g.
Proof.
  unfold run. destruct (page u); try congruence; intros _;
    unfold power_bi_dashboard, exploratory_data_analysis, cluster_insights,
      bind, read, eval, emit, assign; simpl.
  - rewrite ?predict_calls_app; simpl. now rewrite ?app_nil_r.
  - rewrite ?predict_calls_app; simpl. now rewrite ?app_nil_r.
  - destruct (px.scatter (cluster_df g)); simpl;
      rewrite ?predict_calls_app; simpl; now rewrite ?app_nil_r.
Qed.

(** A select box over the sorted distinct values of a non-empty column
    returns a value of the column. *)
Lemma selectbox_of_column (col : list string) (picked : option nat) :
  col <> [] ->
  exists s, st.selectbox (sorted (pd.unique col)) picked = PStr s /\ In s col.
Proof.
  intros Hcol.
  destruct (selectbox_In (sorted (pd.unique col)) picked) as [s [Hs Hin]].
  - intros Hnil. apply Hcol.
    now apply unique_nil_inv, sorted_nil_inv.
  - exists s. split; [exact Hs|].
    now rewrite sorted_In, unique_In in Hin.
Qed.

(** The request of the prediction page and the estimator after the page:
    the estimator is what [predict], applied to the request, left, and it is
    untouched when no request is made. *)
Lemma production_prediction_request
  {Estimator : Type} (lib : Lib.t)
  (predict : Estimator -> pd.DataFrame -> Estimator * result (list pyval))
  (u : UserInput) (g : Globals Estimator) :
  let request :=
    match year_min g, year_max g with
    | Ok lo, Ok hi =>
        match st.slider lo hi 2023 (year_moved_to u) with
        | Ok y =>
            if button u
            then Some (input_columns
                         (st.selectbox (state_options g) (state_picked u))
                         (st.selectbox (crop_options g) (crop_picked u))
                         (PInt y))
            else None
        | Raise _ => None
        end
    | _, _ => None
    end in
  let out := production_prediction lib predict u g in
  predict_calls (trace (fst out))
  = (predict_calls (trace g)
     ++ match request with Some d => [d] | None => [] end)%list /\
  model (fst out)
  = match request with
    | Some d => fst (predict (model g) d)
    | None => model g
    end /\
  df (fst out) = df g /\ cluster_df (fst out) = cluster_df g.
Proof.
  cbv zeta. split.
  - rewrite production_prediction_calls.
    destruct (year_min g) as [lo|]; [|reflexivity].
    destruct (year_max g) as [hi|]; [|reflexivity].
    destruct (st.slider lo hi 2023 (year_moved_to u)); [|reflexivity].
    now destruct (button u).
  - rewrite production_prediction_run.
    pose proof (prediction_widgets_frame u g) as Hf. simpl in Hf.
    destruct Hf as (Hdf & Hcl & Hm & _).
    rewrite prediction_widgets_run in *.
    destruct (year_min g) as [lo|e1]; [|now repeat split].
    destruct (year_max g) as [hi|e2]; [|now repeat split].
    destruct (st.slider lo hi 2023 (year_moved_to u)) as [y|e3];
      [|now repeat split].
    cbn [fst snd] in *.
    match type of Hm with
    | model ?G = _ => set (g1 := G) in *
    end.
    destruct (button u); [|now repeat split].
    destruct (predict_production_frame lib predict
                (add_event (st_button "Predict Production") g1)
                (st.selectbox (state_options g) (state_picked u))
                (st.selectbox (crop_options g) (crop_picked u))
                (PInt y)) as (H1 & H2 & H3 & _).
    rewrite H1, H2, H3. cbn [model df cluster_df add_event].
    now rewrite Hm, Hdf, Hcl.
Qed.

(** ** The prediction block: value, request and frame *)

(** C1. The value the block produces is [np.expm1] of the first element of
    the model's output: when [model.predict] returns a sequence whose first
    element is a number, converted to the float64 [y_log], the block
    finishes normally, binds [prediction] to [np.expm1] of [y_log] and shows
    exactly that value.  For an output [0.0] the value is [0.0], as
    [expm1] of zero is zero. *)
Theorem prediction_is_expm1_of_first_output :
  forall (Estimator : Type) (lib : Lib.t)
    (predict : Estimator -> pd.DataFrame -> Estimator * result (list pyval))
    (g : Globals Estimator) (state crop year : pyval)
    (v : pyval) (rest : list pyval) (y_log : float),
    snd (predict (model g) (input_columns state crop year)) = Ok (v :: rest) ->
    as_float v = Some y_log ->
    let out := predict_production lib predict state crop year g in
    snd out = Ok tt /\
    prediction (fst out) = Some (Lib.np_expm1 lib y_log) /\
    successes (trace (fst out))
    = (successes (trace g) ++ [Lib.np_expm1 lib y_log])%list /\
    (y_log = 0%float ->
     Lib.np_expm1 lib 0%float = 0%float ->
     prediction (fst out) = Some 0%float).
Proof.
  intros E lib predict g state crop year v rest y Hp Hv out. subst out.
  rewrite (predict_production_numeric lib predict g state crop year
             v rest y Hp Hv).
  simpl. rewrite !successes_app. simpl. rewrite !app_nil_r.
  repeat split.
  intros -> H0. now rewrite H0.
Qed.

Lemma C1_stub_returns_zero :
  as_float (PFloat 0) = Some 0%float /\
  Lib.np_expm1 stub.lib 0%float = 0%float /\
  prediction
    (fst (predict_production stub.lib (stub.returning [PFloat 0])
            (PStr "Selangor") (PStr "Rice") (PInt 2023)
            (loaded stub.crops_2017_2022 stub.clusters tt)))
  = Some 0%float.
Proof.
  split; [reflexivity|]. split; [reflexivity|].
  exact (proj2 (proj2 (proj2
    (prediction_is_expm1_of_first_output unit stub.lib
       (stub.returning [PFloat 0])
       (loaded stub.crops_2017_2022 stub.clusters tt)
       (PStr "Selangor") (PStr "Rice") (PInt 2023)
       (PFloat 0) [] 0%float eq_refl eq_refl))) eq_refl eq_refl).
Defined.

(** C7. When the first element of the model's output is a number that is
    not negative, that is, a value [log1p] can give for a non-negative
    production, the block finishes normally and the production value it
    binds and shows is not negative.  The block adds nothing to what
    [np.expm1] returns, and [expm1] maps non-negative floats to
    non-negative floats. *)
Theorem prediction_nonnegative :
  forall (Estimator : Type) (lib : Lib.t)
    (predict : Estimator -> pd.DataFrame -> Estimator * result (list pyval))
    (g : Globals Estimator) (state crop year : pyval)
    (v : pyval) (rest : list pyval) (y_log : float),
    (forall x : float,
        (0 <=? x)%float = true -> (0 <=? Lib.np_expm1 lib x)%float = true) ->
    snd (predict (model g) (input_columns state crop year)) = Ok (v :: rest) ->
    as_float v = Some y_log ->
    (0 <=? y_log)%float = true ->
    let out := predict_production lib predict state crop year g in
    exists p : float,
      snd out = Ok tt /\ prediction (fst out) = Some p /\
      successes (trace (fst out)) = (successes (trace g) ++ [p])%list /\
      (0 <=? p)%float = true.
Proof.
  intros E lib predict g state crop year v rest y Hlib Hp Hv Hy out.
  subst out. exists (Lib.np_expm1 lib y).
  rewrite (predict_production_numeric lib predict g state crop year
             v rest y Hp Hv).
  simpl. rewrite !successes_app. simpl. rewrite !app_nil_r.
  repeat split. now apply Hlib.
Qed.

Lemma C7_stub_nonnegative_output :
  (forall x : float,
      (0 <=? x)%float = true ->
      (0 <=? Lib.np_expm1 stub.lib x)%float = true) /\
  (0 <=? 6.90625)%float = true /\
  exists p : float,
    prediction
      (fst (predict_production stub.lib
              (stub.returning [PFloat 6.90625])
              (PStr "Selangor") (PStr "Rice") (PInt 2023)
              (loaded stub.crops_2017_2022 stub.clusters tt)))
    = Some p /\ (0 <=? p)%float = true.
Proof.
  assert (Hlib : forall x : float,
             (0 <=? x)%float = true ->
             (0 <=? Lib.np_expm1 stub.lib x)%float = true)
    by (intros x Hx; exact Hx).
  split; [exact Hlib|]. split; [reflexivity|].
  destruct (prediction_nonnegative unit stub.lib
              (stub.returning [PFloat 6.90625])
              (loaded stub.crops_2017_2022 stub.clusters tt)
              (PStr "Selangor") (PStr "Rice") (PInt 2023)
              (PFloat 6.90625) [] 6.90625%float
              Hlib eq_refl eq_refl eq_refl)
    as [p [_ [Hp [_ Hpos]]]].
  exists p. split; assumption.
Defined.

(** C4. The block applies [model.predict] once, to a frame of one row and
    exactly the three columns [state], [crop_type] and [year], which hold
    the three values the block was given: the estimator afterwards is what
    [predict] made of it on that frame, the sequence bound to
    [log_prediction] is what [predict] returned on it, and an exception
    [predict] raised on it leaves the block.  On the prediction page the
    three values are those of the two select boxes and of the slider. *)
Theorem model_receives_one_row_of_three_fields :
  forall (Estimator : Type) (lib : Lib.t)
    (predict : Estimator -> pd.DataFrame -> Estimator * result (list pyval))
    (g : Globals Estimator),
    (forall state crop year : pyval,
        let out := predict_production lib predict state crop year g in
        exists d : pd.DataFrame,
          pd.columns d = ["state"; "crop_type"; "year"] /\
          pd.nrows d = 1%nat /\
          pd.column "state" d = Some [state] /\
          pd.column "crop_type" d = Some [crop] /\
          pd.column "year" d = Some [year] /\
          predict_calls (trace (fst out))
          = (predict_calls (trace g) ++ [d])%list /\
          model (fst out) = fst (predict (model g) d) /\
          (forall l, snd (predict (model g) d) = Ok l ->
                     log_prediction (fst out) = Some l) /\
          (forall e, snd (predict (model g) d) = Raise e ->
                     snd out = Raise e)) /\
    (forall u : UserInput,
        let request :=
          match year_min g, year_max g with
          | Ok lo, Ok hi =>
              match st.slider lo hi 2023 (year_moved_to u) with
              | Ok y =>
                  if button u
                  then Some (input_columns
                               (st.selectbox (state_options g)
                                  (state_picked u))
                               (st.selectbox (crop_options g)
                                  (crop_picked u))
                               (PInt y))
                  else None
              | Raise _ => None
              end
          | _, _ => None
          end in
        let out := production_prediction lib predict u g in
        predict_calls (trace (fst out))
        = (predict_calls (trace g)
           ++ match request with Some d => [d] | None => [] end)%list /\
        model (fst out)
        = match request with
          | Some d => fst (predict (model g) d)
          | None => model g
          end).
Proof.
  intros E lib predict g. split.
  - intros state crop year out.
    exists (input_columns state crop year).
    destruct (predict_production_frame lib predict g state crop year)
      as (_ & _ & Hm & _ & Hcalls).
    do 5 (split; [reflexivity|]).
    split; [exact Hcalls|]. split; [exact Hm|]. subst out. split.
    + intros [|v rest] Hl.
      * now rewrite (predict_production_empty lib _ _ _ _ _ Hl).
      * destruct (as_float v) as [y|] eqn:Hv.
        -- now rewrite (predict_production_numeric lib _ _ _ _ _ _ _ _ Hl Hv).
        -- now rewrite (predict_production_not_numeric lib _ _ _ _ _ _ _ Hl Hv).
    + intros e He. now rewrite (predict_production_raised lib _ _ _ _ _ _ He).
  - intros u.
    destruct (production_prediction_request lib predict u g)
      as (Hcalls & Hm & _).
    split; [exact Hcalls | exact Hm].
Qed.

Lemma C4_recording_stub_keeps_the_row :
  model
    (fst (predict_production stub.lib (stub.recording [PFloat 0])
            (PStr "Selangor") (PStr "Rice") (PInt 2023)
            (loaded stub.crops_2017_2022 stub.clusters [])))
  = [input_columns (PStr "Selangor") (PStr "Rice") (PInt 2023)] /\
  log_prediction
    (fst (predict_production stub.lib (stub.recording [PFloat 0])
            (PStr "Selangor") (PStr "Rice") (PInt 2023)
            (loaded stub.crops_2017_2022 stub.clusters [])))
  = Some [PFloat 0].
Proof.
  destruct (proj1
    (model_receives_one_row_of_three_fields (list pd.DataFrame) stub.lib
       (stub.recording [PFloat 0])
       (loaded stub.crops_2017_2022 stub.clusters []))
    (PStr "Selangor") (PStr "Rice") (PInt 2023))
    as (d & Hcols & _ & Hs & Hc & Hy & _ & Hm & Hl & _).
  assert (Hd : d = input_columns (PStr "Selangor") (PStr "Rice") (PInt 2023)).
  { destruct d as [|[k1 v1] [|[k2 v2] [|[k3 v3] [|? ?]]]]; try discriminate.
    simpl in Hcols. injection Hcols as -> -> ->.
    simpl in Hs, Hc, Hy. injection Hs as ->. injection Hc as ->.
    injection Hy as ->. reflexivity. }
  subst d. split; [exact Hm | exact (Hl _ eq_refl)].
Defined.

(** C9. The block changes nothing but what invoking the model changes: the
    crop table and the cluster table are the same objects with the same
    content afterwards, and the estimator is in the state its one [predict]
    call left it in, hence unchanged when [predict] only reads it. This
    holds also when the block stops with an exception. *)
Theorem prediction_leaves_tables_and_model :
  forall (Estimator : Type) (lib : Lib.t)
    (predict : Estimator -> pd.DataFrame -> Estimator * result (list pyval))
    (g : Globals Estimator) (state crop year : pyval),
    let out := predict_production lib predict state crop year g in
    (df (fst out) = df g /\
     cluster_df (fst out) = cluster_df g /\
     model (fst out)
     = fst (predict (model g) (input_columns state crop year))) /\
    ((forall m d, fst (predict m d) = m) -> model (fst out) = model g).
Proof.
  intros E lib predict g state crop year out.
  destruct (predict_production_frame lib predict g state crop year)
    as (Hdf & Hcl & Hm & _ & _).
  fold out in Hdf, Hcl, Hm.
  split; [now repeat split|].
  intros Hro. now rewrite Hm, Hro.
Qed.

Lemma C9_stateless_stub_unchanged :
  (forall m d, fst (stub.returning [PFloat 0] m d) = m) /\
  model
    (fst (predict_production stub.lib (stub.returning [PFloat 0])
            (PStr "Selangor") (PStr "Rice") (PInt 2023)
            (loaded stub.crops_2017_2022 stub.clusters tt)))
  = tt.
Proof.
  split; [reflexivity|].
  exact (proj2
    (prediction_leaves_tables_and_model unit stub.lib
       (stub.returning [PFloat 0])
       (loaded stub.crops_2017_2022 stub.clusters tt)
       (PStr "Selangor") (PStr "Rice") (PInt 2023))
    (fun m d => eq_refl)).
Defined.

(** An estimator that changes in [predict] is changed by the block, and by
    nothing else in it: one call, one step. *)
Example counting_stub_counts_one_call :
  model
    (fst (predict_production stub.lib (stub.counting [PFloat 0])
            (PStr "Selangor") (PStr "Rice") (PInt 2023)
            (loaded stub.crops_2017_2022 stub.clusters 0%nat)))
  = 1%nat.
Proof.
  destruct (predict_production_frame stub.lib (stub.counting [PFloat 0])
              (loaded stub.crops_2017_2022 stub.clusters 0%nat)
              (PStr "Selangor") (PStr "Rice") (PInt 2023))
    as (_ & _ & Hm & _).
  exact Hm.
Qed.

(** ** Failures *)

(** C2, as the specification states it, fails: when the stub model's
    [predict] raises a [RuntimeError], that exception itself leaves the
    block, and when it returns an empty sequence the block raises
    [IndexError]; neither is an [InferenceError]. *)
Lemma model_failure_is_not_InferenceError :
  (forall e : exn,
      snd (predict_production stub.lib
             (stub.raising (Exn "RuntimeError" "model unavailable"))
             (PStr "Selangor") (PStr "Rice") (PInt 2023)
             (loaded stub.crops_2017_2022 stub.clusters tt)) = Raise e ->
      exn_class e = "RuntimeError" /\ exn_class e <> "InferenceError") /\
  (forall e : exn,
      snd (predict_production stub.lib (stub.returning [])
             (PStr "Selangor") (PStr "Rice") (PInt 2023)
             (loaded stub.crops_2017_2022 stub.clusters tt)) = Raise e ->
      exn_class e = "IndexError" /\ exn_class e <> "InferenceError") /\
  snd (predict_production stub.lib
         (stub.raising (Exn "RuntimeError" "model unavailable"))
         (PStr "Selangor") (PStr "Rice") (PInt 2023)
         (loaded stub.crops_2017_2022 stub.clusters tt))
  = Raise (Exn "RuntimeError" "model unavailable").
Proof.
  split; [|split; [|reflexivity]]; intros e [= <-];
    (split; [reflexivity | discriminate]).
Qed.

(** C2, amended. A failure of the model is not swallowed and not wrapped:
    an exception raised by [predict] leaves the block as it is, an empty
    output makes [log_prediction[0]] raise [IndexError], and a first element
    that is not a number makes [np.expm1] raise [TypeError]. Whenever the
    block does not finish normally, [prediction] stays as it was and no
    value is shown. *)
Theorem model_failure_propagates :
  forall (Estimator : Type) (lib : Lib.t)
    (predict : Estimator -> pd.DataFrame -> Estimator * result (list pyval))
    (g : Globals Estimator) (state crop year : pyval),
    let out := predict_production lib predict state crop year g in
    let r := snd (predict (model g) (input_columns state crop year)) in
    (forall e, r = Raise e -> snd out = Raise e) /\
    (r = Ok [] -> snd out = Raise IndexError) /\
    (forall v rest,
        r = Ok (v :: rest) -> as_float v = None -> snd out = Raise TypeError) /\
    (snd out <> Ok tt ->
     prediction (fst out) = prediction g /\
     successes (trace (fst out)) = successes (trace g)).
Proof.
  intros E lib predict g state crop year out r. subst out r.
  repeat match goal with |- _ /\ _ => split end.
  - intros e H. now rewrite (predict_production_raised lib _ _ _ _ _ _ H).
  - intros H. now rewrite (predict_production_empty lib _ _ _ _ _ H).
  - intros v rest H Hv.
    now rewrite (predict_production_not_numeric lib _ _ _ _ _ _ _ H Hv).
  - destruct (predict_cases predict g state crop year)
      as [[e H]|[H|[[v [rest [H Hv]]]|[v [rest [y [H Hv]]]]]]].
    + rewrite (predict_production_raised lib _ _ _ _ _ _ H); simpl.
      rewrite successes_app; simpl. now rewrite app_nil_r.
    + rewrite (predict_production_empty lib _ _ _ _ _ H); simpl.
      rewrite successes_app; simpl. now rewrite app_nil_r.
    + rewrite (predict_production_not_numeric lib _ _ _ _ _ _ _ H Hv); simpl.
      rewrite successes_app; simpl. now rewrite app_nil_r.
    + rewrite (predict_production_numeric lib _ _ _ _ _ _ _ _ H Hv); simpl.
      congruence.
Qed.

Lemma C2_stub_raising_propagates :
  snd (stub.raising (Exn "RuntimeError" "model unavailable") tt
         (input_columns (PStr "Selangor") (PStr "Rice") (PInt 2023)))
  = Raise (Exn "RuntimeError" "model unavailable") /\
  snd (predict_production stub.lib
         (stub.raising (Exn "RuntimeError" "model unavailable"))
         (PStr "Selangor") (PStr "Rice") (PInt 2023)
         (loaded stub.crops_2017_2022 stub.clusters tt))
  = Raise (Exn "RuntimeError" "model unavailable").
Proof.
  split; [reflexivity|].
  exact (proj1
    (model_failure_propagates unit stub.lib
       (stub.raising (Exn "RuntimeError" "model unavailable"))
       (loaded stub.crops_2017_2022 stub.clusters tt)
       (PStr "Selangor") (PStr "Rice") (PInt 2023))
    (Exn "RuntimeError" "model unavailable") eq_refl).
Defined.

(** An integer that fits neither int64 nor uint64 is not a number for
    [np.expm1]. *)
Example huge_int_is_not_numeric :
  as_float (PInt (2 ^ 64)) = None /\
  as_float (PInt (- 2 ^ 63 - 1)) = None /\
  as_float (PInt (2 ^ 64 - 1)) <> None /\
  snd (predict_production stub.lib (stub.returning [PInt (2 ^ 64)])
         (PStr "Selangor") (PStr "Rice") (PInt 2023)
         (loaded stub.crops_2017_2022 stub.clusters tt))
  = Raise TypeError.
Proof. repeat split. discriminate. Qed.

(** C3, as the specification states it, fails.  Given a year with a
    fractional part, a year that is a string, or no state at all, the block
    builds the record, calls the model and finishes normally with the stub
    model's value; it raises nothing, so no [MalformedInputError].  And
    where the page itself has no state and no crop type to offer, on an
    empty crop table, both are [None] and the run stops with the
    [ValueError] of line 162. *)
Lemma malformed_request_is_accepted :
  snd (predict_production stub.lib (stub.returning [PFloat 0])
         (PStr "Selangor") (PStr "Rice") (PFloat 2023.5)
         (loaded stub.crops_2017_2022 stub.clusters tt)) = Ok tt /\
  snd (predict_production stub.lib (stub.returning [PFloat 0])
         (PStr "Selangor") (PStr "Rice") (PStr "next year")
         (loaded stub.crops_2017_2022 stub.clusters tt)) = Ok tt /\
  snd (predict_production stub.lib (stub.returning [PFloat 0])
         PNone (PStr "Rice") (PInt 2023)
         (loaded stub.crops_2017_2022 stub.clusters tt)) = Ok tt /\
  predict_calls
    (trace (fst (predict_production stub.lib (stub.returning [PFloat 0])
                   (PStr "Selangor") (PStr "Rice") (PStr "next year")
                   (loaded stub.crops_2017_2022 stub.clusters tt))))
  = [input_columns (PStr "Selangor") (PStr "Rice") (PStr "next year")] /\
  state
    (fst (run stub.lib (stub.returning [PFloat 0])
            (Build_UserInput ProductionPrediction None None None None true)
            (loaded [] stub.clusters tt))) = Some PNone /\
  crop
    (fst (run stub.lib (stub.returning [PFloat 0])
            (Build_UserInput ProductionPrediction None None None None true)
            (loaded [] stub.clusters tt))) = Some PNone /\
  snd (run stub.lib (stub.returning [PFloat 0])
         (Build_UserInput ProductionPrediction None None None None true)
         (loaded [] stub.clusters tt))
  = Raise (Exn "ValueError" "cannot convert float NaN to integer").
Proof. repeat split. Qed.

(** C3, amended. The block does not validate its three inputs: whatever
    they are, it builds the one-row record from them and hands it to the
    model, and an exception leaves the block only if [predict] raised it,
    or the output was empty ([IndexError]), or its first element was not a
    number for [np.expm1] ([TypeError]). On the prediction page the year of
    every request is an integer, because it is the value of the slider. *)
Theorem request_fields_are_not_validated :
  forall (Estimator : Type) (lib : Lib.t)
    (predict : Estimator -> pd.DataFrame -> Estimator * result (list pyval))
    (g : Globals Estimator),
    (forall state crop year : pyval,
        let out := predict_production lib predict state crop year g in
        let r := snd (predict (model g) (input_columns state crop year)) in
        input_df (fst out) = Some (input_columns state crop year) /\
        predict_calls (trace (fst out))
        = (predict_calls (trace g) ++ [input_columns state crop year])%list /\
        model (fst out)
        = fst (predict (model g) (input_columns state crop year)) /\
        (forall e : exn,
            snd out = Raise e ->
            r = Raise e \/
            (r = Ok [] /\ e = IndexError) \/
            (exists v rest,
                r = Ok (v :: rest) /\ as_float v = None /\ e = TypeError))) /\
    (forall u : UserInput,
        exists requests : list pd.DataFrame,
          predict_calls (trace (fst (production_prediction lib predict u g)))
          = (predict_calls (trace g) ++ requests)%list /\
          Forall (fun d => exists n : Z, pd.column "year" d = Some [PInt n])
                 requests).
Proof.
  intros E lib predict g. split.
  - intros state crop year out r. subst out r.
    destruct (predict_production_frame lib predict g state crop year)
      as (_ & _ & Hm & Hin & Hcalls).
    split; [exact Hin|]. split; [exact Hcalls|]. split; [exact Hm|].
    intros e.
    destruct (predict_cases predict g state crop year)
      as [[e' H]|[H|[[v [rest [H Hv]]]|[v [rest [y [H Hv]]]]]]].
    + rewrite (predict_production_raised lib _ _ _ _ _ _ H); simpl.
      intros [= <-]. now left.
    + rewrite (predict_production_empty lib _ _ _ _ _ H); simpl.
      intros [= <-]. right; left. now split.
    + rewrite (predict_production_not_numeric lib _ _ _ _ _ _ _ H Hv); simpl.
      intros [= <-]. right; right. now exists v, rest.
    + rewrite (predict_production_numeric lib _ _ _ _ _ _ _ _ H Hv); simpl.
      discriminate.
  - intros u. eexists. split; [apply production_prediction_calls|].
    destruct (year_min g) as [lo|]; [|constructor].
    destruct (year_max g) as [hi|]; [|constructor].
    destruct (st.slider lo hi 2023 (year_moved_to u)) as [y|]; [|constructor].
    destruct (button u); constructor; [|constructor].
    eexists. reflexivity.
Qed.

Lemma C3_only_model_failures_leave_block :
  snd (predict_production stub.lib (stub.returning [PStr "n/a"])
         (PStr "Selangor") (PStr "Rice") (PFloat 2023.5)
         (loaded stub.crops_2017_2022 stub.clusters tt))
  = Raise TypeError /\
  (snd (stub.returning [PStr "n/a"] tt
          (input_columns (PStr "Selangor") (PStr "Rice") (PFloat 2023.5)))
   = Raise TypeError \/
   (snd (stub.returning [PStr "n/a"] tt
           (input_columns (PStr "Selangor") (PStr "Rice") (PFloat 2023.5)))
    = Ok [] /\ TypeError = IndexError) \/
   (exists v rest,
       snd (stub.returning [PStr "n/a"] tt
              (input_columns (PStr "Selangor") (PStr "Rice") (PFloat 2023.5)))
       = Ok (v :: rest) /\ as_float v = None /\ TypeError = TypeError)).
Proof.
  split; [reflexivity|].
  exact (proj2 (proj2 (proj2 (proj1
    (request_fields_are_not_validated unit stub.lib
       (stub.returning [PStr "n/a"])
       (loaded stub.crops_2017_2022 stub.clusters tt))
    (PStr "Selangor") (PStr "Rice") (PFloat 2023.5))))
    TypeError eq_refl).
Defined.

(** ** The charts of the exploratory page *)

Lemma filtered_In (data : list pd.CropRecord.t) (sel : pyval)
  (r : pd.CropRecord.t) :
  In r (filtered data sel) <->
  In r data /\ sel = PStr (pd.CropRecord.crop_type r).
Proof.
  unfold filtered. rewrite filter_In.
  destruct sel as [x|n|c|]; try (split; intros [_ H]; discriminate).
  destruct (String.eqb_spec (pd.CropRecord.crop_type r) c) as [->|Hne].
  - tauto.
  - split; intros [Hr H]; [discriminate | congruence].
Qed.

(** The rows of the line chart: one per record given, in their order. *)
Lemma line_points_map (lib : Lib.t) (rows : list pd.CropRecord.t) :
  combine (combine (map pd.CropRecord.year rows) (log_production lib rows))
          (map pd.CropRecord.state rows)
  = map (fun r => (pd.CropRecord.year r,
                   Lib.np_log10 lib (pd.CropRecord.production r + 1)%float,
                   pd.CropRecord.state r)) rows.
Proof.
  induction rows as [|r rows IH]; simpl; [reflexivity|]. now rewrite IH.
Qed.

Lemma group_values (data : list pd.CropRecord.t) (k : string) :
  map snd
    (filter (fun p : string * float => String.eqb (fst p) k)
       (map (fun r => (pd.CropRecord.state r, pd.CropRecord.production r))
          data))
  = map pd.CropRecord.production
      (filter (fun r => String.eqb (pd.CropRecord.state r) k) data).
Proof.
  induction data as [|r data IH]; simpl; [reflexivity|].
  destruct (String.eqb (pd.CropRecord.state r) k); simpl; now rewrite IH.
Qed.

(** The state totals: one row per state option, with the library's sum of
    the productions of the state's records in table order. *)
Lemma state_total_by_state (lib : Lib.t) (data : list pd.CropRecord.t) :
  state_total lib data
  = map (fun k =>
           (k, Lib.pd_sum lib
                 (map pd.CropRecord.production
                    (filter
                       (fun r => String.eqb (pd.CropRecord.state r) k)
                       data))))
      (sorted (pd.unique (map pd.CropRecord.state data))).
Proof.
  unfold state_total, pd.groupby_sum.
  rewrite map_map. cbn [fst].
  apply map_ext. intros k. now rewrite group_values.
Qed.

(** The whole exploratory page. *)
Lemma exploratory_data_analysis_run
  {Estimator : Type} (lib : Lib.t) (u : UserInput) (g : Globals Estimator) :
  let sel := st.selectbox (crop_options g) (crop_selection_picked u) in
  let out := exploratory_data_analysis lib u g in
  trace (fst out)
  = (trace g ++
     [st_header "Production Trend Analysis";
      st_selectbox "Select Crop Type" (crop_options g);
      line_chart
        (map (fun r => (pd.CropRecord.year r,
                        Lib.np_log10 lib
                          (pd.CropRecord.production r + 1)%float,
                        pd.CropRecord.state r))
           (filtered (df g) sel));
      st_subheader "Distribution of Total Production by State";
      histogram
        (map (fun s =>
                Lib.np_log10 lib
                  (Lib.pd_sum lib
                     (map pd.CropRecord.production
                        (filter
                           (fun r => String.eqb (pd.CropRecord.state r) s)
                           (df g))) + 1)%float)
           (state_options g)) 10;
      caption
        "Log scale used due to high production skewness (billions vs thousands)."])%list
  /\ snd out = Ok tt
  /\ df (fst out) = df g /\ cluster_df (fst out) = cluster_df g
  /\ model (fst out) = model g
  /\ input_df (fst out) = input_df g
  /\ log_prediction (fst out) = log_prediction g
  /\ prediction (fst out) = prediction g.
Proof.
  cbv zeta.
  unfold exploratory_data_analysis, bind, read, emit, assign. simpl.
  rewrite line_points_map. unfold log_total.
  rewrite state_total_by_state, map_map. cbn [snd].
  rewrite <- !app_assoc. simpl. now repeat split.
Qed.

(** ** The numeric transforms *)

(** C5, as the specification states it, fails: the exploratory page applies
    [np.log10] to production values.  For one record with production 9 it
    hands [np.log10 (9 + 1)] to the line chart and to the histogram,
    whatever [np.log10] computes: with a [log10] that is right at 10 the
    value plotted is 1, and with another function in the place of [log10],
    and [expm1] unchanged, the page plots other values. *)
Lemma exploratory_page_applies_log10 :
  (forall lib : Lib.t,
      trace
        (fst (run lib (stub.returning [PFloat 0])
                (Build_UserInput ExploratoryDataAnalysis
                   None None None None false)
                (loaded stub.crops_2010 stub.clusters tt)))
      = [st_header "Production Trend Analysis";
         st_selectbox "Select Crop Type" ["Rice"];
         line_chart [(2010%Z, Lib.np_log10 lib 10%float, "Johor")];
         st_subheader "Distribution of Total Production by State";
         histogram
           [Lib.np_log10 lib (Lib.pd_sum lib [9%float] + 1)%float] 10;
         caption
           "Log scale used due to high production skewness (billions vs thousands)."]) /\
  Lib.np_log10 stub.lib 10%float = 1%float /\
  Lib.np_expm1 stub.lib = Lib.np_expm1 stub.lib_other_log10 /\
  trace
    (fst (run stub.lib (stub.returning [PFloat 0])
            (Build_UserInput ExploratoryDataAnalysis
               None None None None false)
            (loaded stub.crops_2010 stub.clusters tt)))
  <> trace
       (fst (run stub.lib_other_log10 (stub.returning [PFloat 0])
               (Build_UserInput ExploratoryDataAnalysis
                  None None None None false)
               (loaded stub.crops_2010 stub.clusters tt))).
Proof.
  split; [intros lib; reflexivity|].
  split; [reflexivity|]. split; [reflexivity|].
  vm_compute. intros H. discriminate H.
Qed.

(** C5, amended. Two transforms are applied to production values. On the
    prediction page the model's numeric output is turned into a production
    value by [np.expm1] and nothing else. On the exploratory page, for
    display only, [np.log10 (x + 1)] is applied to the production [x] of
    every record of the selected crop type, for the line chart, and to the
    total production [x] of every state, for the histogram: the line chart
    gets one row for each record of the selected crop type and no other,
    the histogram one value for each state of the table.  That page ends
    with its caption, leaves the crop table and [prediction] as they are and
    does not call the model. *)
Theorem production_transforms :
  forall (Estimator : Type) (lib : Lib.t)
    (predict : Estimator -> pd.DataFrame -> Estimator * result (list pyval))
    (g : Globals Estimator),
    (forall (state crop year v : pyval) (rest : list pyval) (y_log : float),
        snd (predict (model g) (input_columns state crop year))
        = Ok (v :: rest) ->
        as_float v = Some y_log ->
        let out := predict_production lib predict state crop year g in
        prediction (fst out) = Some (Lib.np_expm1 lib y_log) /\
        successes (trace (fst out))
        = (successes (trace g) ++ [Lib.np_expm1 lib y_log])%list) /\
    (forall u : UserInput,
        page u = ExploratoryDataAnalysis ->
        let out := run lib predict u g in
        let sel := st.selectbox (crop_options g) (crop_selection_picked u) in
        trace (fst out)
        = (trace g ++
           [st_header "Production Trend Analysis";
            st_selectbox "Select Crop Type" (crop_options g);
            line_chart
              (map (fun r => (pd.CropRecord.year r,
                              Lib.np_log10 lib
                                (pd.CropRecord.production r + 1)%float,
                              pd.CropRecord.state r))
                 (filtered (df g) sel));
            st_subheader "Distribution of Total Production by State";
            histogram
              (map (fun s =>
                      Lib.np_log10 lib
                        (Lib.pd_sum lib
                           (map pd.CropRecord.production
                              (filter
                                 (fun r =>
                                    String.eqb (pd.CropRecord.state r) s)
                                 (df g))) + 1)%float)
                 (state_options g)) 10;
            caption
              "Log scale used due to high production skewness (billions vs thousands)."])%list /\
        (forall r, In r (filtered (df g) sel)
                   <-> In r (df g) /\ sel = PStr (pd.CropRecord.crop_type r)) /\
        (forall s, In s (state_options g)
                   <-> In s (map pd.CropRecord.state (df g))) /\
        snd out = Ok tt /\
        df (fst out) = df g /\
        prediction (fst out) = prediction g /\
        successes (trace (fst out)) = successes (trace g) /\
        predict_calls (trace (fst out)) = predict_calls (trace g) /\
        model (fst out) = model g).
Proof.
  intros E lib predict g. split.
  - intros state crop year v rest y Hp Hv out. subst out.
    rewrite (predict_production_numeric lib _ _ _ _ _ _ _ _ Hp Hv).
    simpl. rewrite !successes_app. simpl. now rewrite !app_nil_r.
  - intros u Hpage out sel.
    destruct (other_pages_calls lib predict u g) as [Hcalls Hmodel];
      [congruence|].
    fold out in Hcalls, Hmodel.
    subst out sel. unfold run in *. rewrite Hpage in *.
    destruct (exploratory_data_analysis_run lib u g)
      as (Htrace & Hok & Hdf & _ & _ & _ & _ & Hpred).
    split; [exact Htrace|].
    split; [intros r; apply filtered_In|].
    split; [intros s; unfold state_options;
            now rewrite sorted_In, unique_In|].
    split; [exact Hok|]. split; [exact Hdf|]. split; [exact Hpred|].
    split; [|split; [exact Hcalls | exact Hmodel]].
    rewrite Htrace, successes_app. simpl. now rewrite app_nil_r.
Qed.

Lemma C5_exploratory_page_on_sample :
  page (Build_UserInput ExploratoryDataAnalysis None None None None false)
  = ExploratoryDataAnalysis /\
  snd (run stub.lib (stub.returning [PFloat 0])
         (Build_UserInput ExploratoryDataAnalysis None None None None false)
         (loaded stub.crops_2017_2022 stub.clusters tt)) = Ok tt /\
  df (fst (run stub.lib (stub.returning [PFloat 0])
             (Build_UserInput ExploratoryDataAnalysis None None None None false)
             (loaded stub.crops_2017_2022 stub.clusters tt)))
  = stub.crops_2017_2022.
Proof.
  split; [reflexivity|].
  destruct (proj2
    (production_transforms unit stub.lib (stub.returning [PFloat 0])
       (loaded stub.crops_2017_2022 stub.clusters tt))
    (Build_UserInput ExploratoryDataAnalysis None None None None false)
    eq_refl) as (_ & _ & _ & Hok & Hdf & _).
  split; [exact Hok | exact Hdf].
Defined.

(** ** The widgets *)

(** C8. The year is not always kept within the first observed year and the
    last observed year plus three. With crop data of the year 2010 only,
    the slider is asked for the range from 2010 to 2013, yet it starts at
    its default 2023 and can be moved to 2020: both years reach the model. *)
Theorem default_year_exceeds_three_year_extrapolation :
  let g := loaded stub.crops_2010 stub.clusters tt in
  let untouched :=
    Build_UserInput ProductionPrediction None None None None true in
  let moved :=
    Build_UserInput ProductionPrediction None None None (Some 2020%Z) true in
  year_min g = Ok 2010%Z /\
  year_max g = Ok 2013%Z /\
  predict_calls
    (trace (fst (run stub.lib (stub.returning [PFloat 0]) untouched g)))
  = [input_columns (PStr "Johor") (PStr "Rice") (PInt 2023)] /\
  predict_calls
    (trace (fst (run stub.lib (stub.returning [PFloat 0]) moved g)))
  = [input_columns (PStr "Johor") (PStr "Rice") (PInt 2020)] /\
  ~ (2010 <= 2023 <= 2013)%Z /\ ~ (2010 <= 2020 <= 2013)%Z.
Proof.
  repeat split; lia.
Qed.

(** C10. Not every request stays within what the data supports.  With crop
    data of the year 2010 only, the request made with untouched widgets has
    a state and a crop type of the table, but its year, 2023, is more than
    three years after the last observed year; the recording estimator
    receives it. *)
Theorem known_categories_but_year_beyond_range :
  let g := loaded stub.crops_2010 stub.clusters [] in
  let u := Build_UserInput ProductionPrediction None None None None true in
  let out := run stub.lib (stub.recording [PFloat 0]) u g in
  model (fst out) = [input_columns (PStr "Johor") (PStr "Rice") (PInt 2023)] /\
  predict_calls (trace (fst out))
  = [input_columns (PStr "Johor") (PStr "Rice") (PInt 2023)] /\
  In "Johor" (map pd.CropRecord.state (df g)) /\
  In "Rice" (map pd.CropRecord.crop_type (df g)) /\
  pd.min (map pd.CropRecord.year (df g)) = Some 2010%Z /\
  pd.max (map pd.CropRecord.year (df g)) = Some 2010%Z /\
  ~ (2010 <= 2023 <= 2010 + 3)%Z.
Proof.
  repeat split; try (now left); lia.
Qed.

(** * Further properties of the script *)

(** ** Line 162: the slider over the years of the table *)

Lemma slider_raises (min_value max_value value : Z) (moved : option Z) :
  st.js_safe (fst (st.slider_bounds min_value max_value value)) = false \/
  st.js_safe (snd (st.slider_bounds min_value max_value value)) = false ->
  st.slider min_value max_value value moved = Raise StreamlitAPIException.
Proof.
  unfold st.slider.
  destruct (st.slider_bounds min_value max_value value) as [lo hi]. simpl.
  intros [-> | ->]; [reflexivity|].
  now rewrite andb_false_r.
Qed.

Lemma slider_returns (min_value max_value value : Z) (moved : option Z) :
  st.js_safe (fst (st.slider_bounds min_value max_value value)) = true ->
  st.js_safe (snd (st.slider_bounds min_value max_value value)) = true ->
  exists y, st.slider min_value max_value value moved = Ok y.
Proof.
  unfold st.slider.
  destruct (st.slider_bounds min_value max_value value) as [lo hi]. simpl.
  intros -> ->. simpl. now eexists.
Qed.

Lemma js_unsafe_spec (n : Z) :
  st.js_safe n = false <-> (n < - (2 ^ 53 - 1) \/ 2 ^ 53 - 1 < n)%Z.
Proof.
  unfold st.js_safe. rewrite andb_false_iff, !Z.leb_gt. reflexivity.
Qed.

(** What line 162 does with a table whose first and last observed years
    are [first] and [last]: the slider is shown when [first] and [last + 3]
    are safe integers of JavaScript, and the call raises otherwise, also
    when [last + 3] wraps around in int64. *)
Lemma slider_over_years {Estimator : Type} (g : Globals Estimator)
  (first last : Z) (moved : option Z) :
  pd.min (map pd.CropRecord.year (df g)) = Some first ->
  pd.max (map pd.CropRecord.year (df g)) = Some last ->
  (first <= last)%Z /\
  year_min g = Ok first /\
  year_max g = Ok (Int64.wrap (last + 3)) /\
  (((- (2 ^ 53 - 1) <= first)%Z /\ (last + 3 <= 2 ^ 53 - 1)%Z ->
    Int64.wrap (last + 3) = (last + 3)%Z /\
    exists y, st.slider first (last + 3) 2023 moved = Ok y) /\
   (~ ((- (2 ^ 53 - 1) <= first)%Z /\ (last + 3 <= 2 ^ 53 - 1)%Z) ->
    st.slider first (Int64.wrap (last + 3)) 2023 moved
    = Raise StreamlitAPIException)).
Proof.
  intros Hmin Hmax.
  destruct (pd_min_spec _ _ Hmin) as [Hfin Hfle].
  destruct (pd_max_spec _ _ Hmax) as [Hlin Hlle].
  pose proof (year_in_int64 _ _ Hfin) as Hf64.
  pose proof (year_in_int64 _ _ Hlin) as Hl64.
  assert (Hfl : (first <= last)%Z) by (apply Hlle, Hfin).
  split; [exact Hfl|].
  split; [unfold year_min; now rewrite Hmin|].
  split; [unfold year_max; now rewrite Hmax|].
  split.
  - intros [Hlo Hhi].
    assert (Hw : Int64.wrap (last + 3) = (last + 3)%Z)
      by (apply wrap_in_range; lia).
    split; [exact Hw|].
    apply slider_returns; unfold st.slider_bounds; simpl;
      apply js_safe_spec; lia.
  - intros Hunsafe. apply slider_raises.
    unfold st.slider_bounds; simpl. rewrite !js_unsafe_spec.
    destruct (Z_le_gt_dec (last + 3) (2 ^ 63 - 1)) as [Hnowrap|Hwrap].
    + rewrite (wrap_in_range (last + 3)) by lia.
      destruct (Z_lt_le_dec first (- (2 ^ 53 - 1))) as [Hlo|Hlo].
      * left. left. lia.
      * right. right. lia.
    + pose proof (wrap_overflow (last + 3)) as Hw.
      left. left. lia.
Qed.

(** Line 162 on the prediction page: when the default year 2023 lies
    between the first observed year and the last one plus three, every
    request of the page has its year between these two. *)
Lemma requests_within_three_years
  {Estimator : Type} (lib : Lib.t)
  (predict : Estimator -> pd.DataFrame -> Estimator * result (list pyval))
  (u : UserInput) (g : Globals Estimator) (first last : Z) :
  pd.min (map pd.CropRecord.year (df g)) = Some first ->
  pd.max (map pd.CropRecord.year (df g)) = Some last ->
  (first <= 2023 <= last + 3)%Z ->
  (forall r, In r (df g) -> (first <= pd.CropRecord.year r <= last)%Z) /\
  exists requests : list pd.DataFrame,
    predict_calls (trace (fst (production_prediction lib predict u g)))
    = (predict_calls (trace g) ++ requests)%list /\
    Forall
      (fun d =>
         exists y : Z,
           pd.column "year" d = Some [PInt y] /\ (first <= y <= last + 3)%Z)
      requests.
Proof.
  intros Hmin Hmax Hdefault. split.
  - intros r Hr.
    apply (in_map pd.CropRecord.year) in Hr.
    destruct (pd_min_spec _ _ Hmin) as [_ Hlo].
    destruct (pd_max_spec _ _ Hmax) as [_ Hhi].
    split; [now apply Hlo | now apply Hhi].
  - eexists. split; [apply production_prediction_calls|].
    destruct (slider_over_years g first last (year_moved_to u) Hmin Hmax)
      as (_ & Hlo & Hhi & Hsafe & Hunsafe).
    rewrite Hlo, Hhi.
    destruct (Z_le_gt_dec (- (2 ^ 53 - 1)) first) as [H1|H1];
      [destruct (Z_le_gt_dec (last + 3) (2 ^ 53 - 1)) as [H2|H2]|].
    + destruct (Hsafe (conj H1 H2)) as [Hw [y Hy]].
      rewrite Hw, Hy.
      destruct (button u); constructor; [|constructor].
      eexists. split; [reflexivity|].
      now apply (year_within_requested_range first (last + 3)
                   (year_moved_to u)).
    + rewrite Hunsafe by lia. constructor.
    + rewrite Hunsafe by lia. constructor.
Qed.

(** ** The options of the select boxes (lines 80, 156, 159) *)

Lemma leb_refl (a : string) : String.leb a a = true.
Proof. destruct (String.leb_total a a); assumption. Qed.

Lemma leb_ltb_or_eq (a b : string) :
  String.leb a b = true <-> String.ltb a b = true \/ a = b.
Proof.
  unfold String.leb, String.ltb.
  destruct (String.compare a b) eqn:Hc; split; try tauto.
  - intros _. right. now apply String.compare_eq_iff.
  - intros [H|H]; [discriminate|].
    subst b. pose proof (leb_refl a) as Hr. unfold String.leb in Hr.
    now rewrite Hc in Hr.
Qed.

Lemma ltb_trans (a b c : string) :
  String.ltb a b = true -> String.ltb b c = true -> String.ltb a c = true.
Proof.
  unfold String.ltb.
  destruct (String.compare a b) eqn:Hab; try discriminate.
  destruct (String.compare b c) eqn:Hbc; try discriminate.
  intros _ _.
  apply OrderedTypeEx.String_as_OT.cmp_lt in Hab, Hbc.
  pose proof (OrderedTypeEx.String_as_OT.lt_trans _ _ _ Hab Hbc) as Hac.
  apply OrderedTypeEx.String_as_OT.cmp_lt in Hac.
  unfold OrderedTypeEx.String_as_OT.cmp in Hac. now rewrite Hac.
Qed.

Lemma leb_trans (a b c : string) :
  String.leb a b = true -> String.leb b c = true -> String.leb a c = true.
Proof.
  rewrite !leb_ltb_or_eq.
  intros [Hab| ->] [Hbc| ->]; auto.
  left. eapply ltb_trans; eassumption.
Qed.

Lemma insort_Permutation (x : string) (l : list string) :
  Permutation (insort x l) (x :: l).
Proof.
  induction l as [|y l IH]; simpl; [reflexivity|].
  destruct (String.leb x y); [reflexivity|].
  rewrite IH. apply perm_swap.
Qed.

Lemma sorted_Permutation (l : list string) : Permutation (sorted l) l.
Proof.
  unfold sorted. induction l as [|x l IH]; simpl; [reflexivity|].
  rewrite insort_Permutation. now constructor.
Qed.

Lemma insort_ascending (x : string) (l : list string) :
  StronglySorted (fun a b => String.leb a b = true) l ->
  StronglySorted (fun a b => String.leb a b = true) (insort x l).
Proof.
  induction 1 as [|y l Hl IH Hy]; simpl.
  - repeat constructor.
  - destruct (String.leb x y) eqn:Hxy.
    + constructor; [now constructor|].
      constructor; [exact Hxy|].
      eapply Forall_impl; [|exact Hy].
      intros z Hz. eapply leb_trans; eassumption.
    + constructor; [exact IH|].
      apply Forall_forall. intros z Hz.
      apply insort_In in Hz. destruct Hz as [->|Hz].
      * destruct (String.leb_total x y) as [H|H]; [congruence | exact H].
      * rewrite Forall_forall in Hy. now apply Hy.
Qed.

Lemma sorted_ascending (l : list string) :
  StronglySorted (fun a b => String.leb a b = true) (sorted l).
Proof.
  unfold sorted. induction l as [|x l IH]; simpl.
  - constructor.
  - now apply insort_ascending.
Qed.

Lemma unique_NoDup (l : list string) : NoDup (pd.unique l).
Proof.
  induction l as [|x l IH]; simpl; constructor.
  - rewrite filter_In. intros [_ H]. now rewrite String.eqb_refl in H.
  - now apply NoDup_filter.
Qed.

Lemma ascending_NoDup_strict (l : list string) :
  StronglySorted (fun a b => String.leb a b = true) l ->
  NoDup l ->
  StronglySorted (fun a b => String.ltb a b = true) l.
Proof.
  induction 1 as [|x l Hl IH Hx]; intros Hnd; constructor.
  - apply IH. now inversion Hnd.
  - inversion Hnd as [|? ? Hnotin _]; subst.
    apply Forall_forall. intros z Hz.
    rewrite Forall_forall in Hx. specialize (Hx z Hz).
    apply leb_ltb_or_eq in Hx. destruct Hx as [H| ->]; [exact H|].
    contradiction.
Qed.

(** The options built by [sorted(column.unique())]. *)
Lemma options_of_column (col : list string) :
  StronglySorted (fun a b => String.ltb a b = true) (sorted (pd.unique col)) /\
  NoDup (sorted (pd.unique col)) /\
  (forall s, In s (sorted (pd.unique col)) <-> In s col).
Proof.
  assert (Hnd : NoDup (sorted (pd.unique col))).
  { eapply Permutation_NoDup;
      [symmetry; apply sorted_Permutation | apply unique_NoDup]. }
  split; [|split; [exact Hnd|]].
  - apply ascending_NoDup_strict; [apply sorted_ascending | exact Hnd].
  - intros s. now rewrite sorted_In, unique_In.
Qed.

(** X1. The options of the state box and of the two crop boxes are exactly
    the values that occur in the column, each once, in strictly ascending
    order. *)
Theorem select_options_sorted_distinct :
  forall (Estimator : Type) (g : Globals Estimator),
    (StronglySorted (fun a b => String.ltb a b = true) (state_options g) /\
     NoDup (state_options g) /\
     (forall s, In s (state_options g)
                <-> In s (map pd.CropRecord.state (df g)))) /\
    (StronglySorted (fun a b => String.ltb a b = true) (crop_options g) /\
     NoDup (crop_options g) /\
     (forall c, In c (crop_options g)
                <-> In c (map pd.CropRecord.crop_type (df g)))).
Proof.
  intros E g. split; apply options_of_column.
Qed.

(** An untouched select box shows the least option. *)
Lemma selectbox_default_least (col : list string) :
  col <> [] ->
  exists s,
    st.selectbox (sorted (pd.unique col)) None = PStr s /\
    In s col /\
    forall s', In s' col -> String.leb s s' = true.
Proof.
  intros Hcol.
  destruct (selectbox_of_column col None Hcol) as [s [Hs Hin]].
  exists s. split; [exact Hs|]. split; [exact Hin|].
  intros s' Hs'.
  pose proof (sorted_ascending (pd.unique col)) as Hsorted.
  assert (Hs'o : In s' (sorted (pd.unique col)))
    by now rewrite sorted_In, unique_In.
  destruct (sorted (pd.unique col)) as [|first rest]; [destruct Hs'o|].
  simpl in Hs. injection Hs as <-.
  inversion Hsorted as [|? ? _ Hall]; subst.
  destruct Hs'o as [<-|Hrest]; [apply leb_refl|].
  rewrite Forall_forall in Hall. now apply Hall.
Qed.

(** Every value of the column can be picked in the select box. *)
Lemma selectbox_reaches (col : list string) (s : string) :
  In s col ->
  exists i : nat, st.selectbox (sorted (pd.unique col)) (Some i) = PStr s.
Proof.
  intros Hin.
  assert (Ho : In s (sorted (pd.unique col)))
    by now rewrite sorted_In, unique_In.
  destruct (sorted (pd.unique col)) as [|first rest] eqn:Hopts;
    [destruct Ho|].
  destruct (In_nth _ _ first Ho) as [i [_ Hi]].
  exists i. cbv [st.selectbox]. now rewrite Hi.
Qed.

(** ** The requests the page can make (lines 153-173) *)

(** X16. Every request a run of the script hands to the model has a state
    that occurs in the [state] column of the crop table, a crop type that
    occurs in its [crop_type] column and an integer year, so that no
    category absent from the data reaches the model through the page.  A
    run makes no request or one, and the estimator afterwards is what
    [predict] made of it on that request. *)
Theorem ui_requests_have_known_state_and_crop :
  forall (Estimator : Type) (lib : Lib.t)
    (predict : Estimator -> pd.DataFrame -> Estimator * result (list pyval))
    (u : UserInput) (g : Globals Estimator),
  exists request : option pd.DataFrame,
    predict_calls (trace (fst (run lib predict u g)))
    = (predict_calls (trace g)
       ++ match request with Some d => [d] | None => [] end)%list /\
    model (fst (run lib predict u g))
    = match request with
      | Some d => fst (predict (model g) d)
      | None => model g
      end /\
    match request with
    | Some d =>
        exists (s c : string) (y : Z),
          d = input_columns (PStr s) (PStr c) (PInt y) /\
          In s (map pd.CropRecord.state (df g)) /\
          In c (map pd.CropRecord.crop_type (df g))
    | None => True
    end.
Proof.
  intros E lib predict u g.
  destruct (page u) eqn:Hpage;
    try (exists None;
         destruct (other_pages_calls lib predict u g) as [Hc Hm];
         [congruence|];
         rewrite Hc, Hm, app_nil_r; now repeat split).
  unfold run; rewrite Hpage.
  destruct (production_prediction_request lib predict u g)
    as (Hcalls & Hm & _).
  eexists. split; [exact Hcalls|]. split; [exact Hm|].
  destruct (df g) as [|r rows] eqn:Hdf.
  { destruct (year_bounds_without_data g Hdf) as [-> _]. exact I. }
  destruct (year_min g) as [lo|]; [|exact I].
  destruct (year_max g) as [hi|]; [|exact I].
  destruct (st.slider lo hi 2023 (year_moved_to u)) as [y|]; [|exact I].
  destruct (button u); [|exact I].
  destruct (selectbox_of_column (map pd.CropRecord.state (df g))
              (state_picked u)) as [s [Hs Hsin]];
    [rewrite Hdf; discriminate|].
  destruct (selectbox_of_column (map pd.CropRecord.crop_type (df g))
              (crop_picked u)) as [c [Hc Hcin]];
    [rewrite Hdf; discriminate|].
  exists s, c, y.
  unfold state_options, crop_options. rewrite <- Hdf, Hs, Hc.
  now repeat split.
Qed.

(** X2. On the first visit to the prediction page, with a crop table whose
    years are such that line 162 does not raise, pressing the button
    without touching a widget asks the model, once, for the least state,
    the least crop type (in the order of strings) and the year 2023. *)
Theorem untouched_widgets_request :
  forall (Estimator : Type) (lib : Lib.t)
    (predict : Estimator -> pd.DataFrame -> Estimator * result (list pyval))
    (g : Globals Estimator) (first last : Z),
    pd.min (map pd.CropRecord.year (df g)) = Some first ->
    pd.max (map pd.CropRecord.year (df g)) = Some last ->
    (- (2 ^ 53 - 1) <= first)%Z ->
    (last + 3 <= 2 ^ 53 - 1)%Z ->
    let u := Build_UserInput ProductionPrediction None None None None true in
    exists s c : string,
      predict_calls (trace (fst (run lib predict u g)))
      = (predict_calls (trace g)
         ++ [input_columns (PStr s) (PStr c) (PInt 2023)])%list /\
      model (fst (run lib predict u g))
      = fst (predict (model g)
               (input_columns (PStr s) (PStr c) (PInt 2023))) /\
      In s (map pd.CropRecord.state (df g)) /\
      (forall s', In s' (map pd.CropRecord.state (df g)) ->
                  String.leb s s' = true) /\
      In c (map pd.CropRecord.crop_type (df g)) /\
      (forall c', In c' (map pd.CropRecord.crop_type (df g)) ->
                  String.leb c c' = true).
Proof.
  intros E lib predict g first last Hmin Hmax Hfirst Hlast u.
  assert (Hdf : df g <> [])
    by (intros H; rewrite H in Hmin; discriminate).
  destruct (slider_over_years g first last None Hmin Hmax)
    as (_ & Hlo & Hhi & Hsafe & _).
  destruct (Hsafe (conj Hfirst Hlast)) as [Hw [y Hy]].
  assert (Hy23 : y = 2023%Z).
  { unfold st.slider in Hy.
    destruct (st.slider_bounds first (last + 3) 2023) as [lo hi].
    destruct (st.js_safe lo && st.js_safe hi); now inversion Hy. }
  subst y.
  assert (Hs0 : map pd.CropRecord.state (df g) <> [])
    by (destruct (df g); [congruence | discriminate]).
  assert (Hc0 : map pd.CropRecord.crop_type (df g) <> [])
    by (destruct (df g); [congruence | discriminate]).
  destruct (selectbox_default_least _ Hs0) as (s & Hs & Hsin & Hsmin).
  destruct (selectbox_default_least _ Hc0) as (c & Hc & Hcin & Hcmin).
  exists s, c.
  destruct (production_prediction_request lib predict u g)
    as (Hcalls & Hm & _).
  subst u. unfold run. cbn [page].
  rewrite Hcalls, Hm, Hlo, Hhi, Hw. cbn [year_moved_to button].
  rewrite Hy. cbn [state_picked crop_picked].
  unfold state_options, crop_options. rewrite Hs, Hc.
  now repeat split.
Qed.

Lemma X2_untouched_on_sample :
  (- (2 ^ 53 - 1) <= 2017)%Z /\ (2022 + 3 <= 2 ^ 53 - 1)%Z /\
  exists s c : string,
    model
      (fst (run stub.lib (stub.recording [PFloat 0])
              (Build_UserInput ProductionPrediction
                 None None None None true)
              (loaded stub.crops_2017_2022 stub.clusters [])))
    = [input_columns (PStr s) (PStr c) (PInt 2023)].
Proof.
  assert (H1 : (- (2 ^ 53 - 1) <= 2017)%Z) by lia.
  assert (H2 : (2022 + 3 <= 2 ^ 53 - 1)%Z) by lia.
  split; [exact H1|]. split; [exact H2|].
  destruct (untouched_widgets_request (list pd.DataFrame) stub.lib
              (stub.recording [PFloat 0])
              (loaded stub.crops_2017_2022 stub.clusters [])
              2017%Z 2022%Z eq_refl eq_refl H1 H2)
    as (s & c & _ & Hm & _).
  exists s, c. exact Hm.
Defined.

(** X3. With a crop table whose years are such that line 162 does not
    raise, every state and every crop type of the table, and every year
    from the first observed year to the last one plus three, can be
    requested: for two records of the table and such a year there is a way
    to set the widgets so that the model is asked, once, for exactly the
    state of the one, the crop type of the other and that year. *)
Theorem every_known_request_is_reachable :
  forall (Estimator : Type) (lib : Lib.t)
    (predict : Estimator -> pd.DataFrame -> Estimator * result (list pyval))
    (g : Globals Estimator) (r1 r2 : pd.CropRecord.t) (first last y : Z),
    In r1 (df g) ->
    In r2 (df g) ->
    pd.min (map pd.CropRecord.year (df g)) = Some first ->
    pd.max (map pd.CropRecord.year (df g)) = Some last ->
    (- (2 ^ 53 - 1) <= first)%Z ->
    (last + 3 <= 2 ^ 53 - 1)%Z ->
    (first <= y <= last + 3)%Z ->
    exists u : UserInput,
      predict_calls (trace (fst (run lib predict u g)))
      = (predict_calls (trace g)
         ++ [input_columns (PStr (pd.CropRecord.state r1))
               (PStr (pd.CropRecord.crop_type r2)) (PInt y)])%list /\
      model (fst (run lib predict u g))
      = fst (predict (model g)
               (input_columns (PStr (pd.CropRecord.state r1))
                  (PStr (pd.CropRecord.crop_type r2)) (PInt y))).
Proof.
  intros E lib predict g r1 r2 first last y Hr1 Hr2 Hmin Hmax
    Hfirst Hlast Hy.
  destruct (selectbox_reaches (map pd.CropRecord.state (df g))
              (pd.CropRecord.state r1)) as [i Hi]; [now apply in_map|].
  destruct (selectbox_reaches (map pd.CropRecord.crop_type (df g))
              (pd.CropRecord.crop_type r2)) as [j Hj]; [now apply in_map|].
  destruct (slider_over_years g first last (Some y) Hmin Hmax)
    as (_ & Hlo & Hhi & Hsafe & _).
  destruct (Hsafe (conj Hfirst Hlast)) as [Hw _].
  assert (Hslider : st.slider first (last + 3) 2023 (Some y) = Ok y).
  { apply slider_honours_move; [exact Hy| | |reflexivity];
      apply js_safe_spec; lia. }
  exists (Build_UserInput ProductionPrediction None (Some i) (Some j)
            (Some y) true).
  destruct (production_prediction_request lib predict
              (Build_UserInput ProductionPrediction None (Some i) (Some j)
                 (Some y) true) g) as (Hcalls & Hm & _).
  unfold run. cbn [page].
  rewrite Hcalls, Hm, Hlo, Hhi, Hw.
  cbn [year_moved_to button state_picked crop_picked].
  rewrite Hslider.
  unfold state_options, crop_options. rewrite Hi, Hj.
  now split.
Qed.

Lemma X3_selangor_flowers_2025 :
  (- (2 ^ 53 - 1) <= 2017)%Z /\ (2022 + 3 <= 2 ^ 53 - 1)%Z /\
  (2017 <= 2025 <= 2022 + 3)%Z /\
  exists u : UserInput,
    model
      (fst (run stub.lib (stub.recording [PFloat 0]) u
              (loaded stub.crops_2017_2022 stub.clusters [])))
    = [input_columns (PStr "Selangor") (PStr "Flowers") (PInt 2025)].
Proof.
  assert (H1 : (- (2 ^ 53 - 1) <= 2017)%Z) by lia.
  assert (H2 : (2022 + 3 <= 2 ^ 53 - 1)%Z) by lia.
  assert (Hy : (2017 <= 2025 <= 2022 + 3)%Z) by lia.
  split; [exact H1|]. split; [exact H2|]. split; [exact Hy|].
  destruct (every_known_request_is_reachable (list pd.DataFrame) stub.lib
              (stub.recording [PFloat 0])
              (loaded stub.crops_2017_2022 stub.clusters [])
              (pd.CropRecord.Build "Selangor" "Rice"
                 (Int64.mk 2017 eq_refl) 999)
              (pd.CropRecord.Build "Johor" "Flowers"
                 (Int64.mk 2022 eq_refl) 9)
              2017%Z 2022%Z 2025%Z
              (or_introl eq_refl) (or_intror (or_introl eq_refl))
              eq_refl eq_refl H1 H2 Hy) as (u & _ & Hm).
  exists u. exact Hm.
Defined.


(** A table whose last year plus three wraps around in int64 makes line
    162 raise, and the model is not called. *)
Example wrapped_year_stops_the_page :
  let data :=
    [pd.CropRecord.Build "Johor" "Rice"
       (Int64.mk (2 ^ 63 - 1) eq_refl) 9] in
  let out :=
    run stub.lib (stub.recording [PFloat 0])
      (Build_UserInput ProductionPrediction None None None None true)
      (loaded data stub.clusters []) in
  snd out = Raise StreamlitAPIException /\ model (fst out) = [].
Proof. split; reflexivity. Qed.

(** ** The exploratory page (lines 74-113) *)

(** X4. With crop data, the crop type the exploratory page works with is
    the value of its select box, which is a crop type of the table; the line
    chart gets exactly the records of that crop type, one row per record in
    the order of the table, with the record's year, its state and
    [np.log10 (production + 1)]. So the chart has at least one row, and the
    page ends normally. *)
Theorem line_chart_one_point_per_record :
  forall (Estimator : Type) (lib : Lib.t)
    (predict : Estimator -> pd.DataFrame -> Estimator * result (list pyval))
    (u : UserInput) (g : Globals Estimator),
    page u = ExploratoryDataAnalysis ->
    df g <> [] ->
    exists c : string,
      st.selectbox (crop_options g) (crop_selection_picked u) = PStr c /\
      In c (map pd.CropRecord.crop_type (df g)) /\
      trace (fst (run lib predict u g))
      = (trace g ++
         [st_header "Production Trend Analysis";
          st_selectbox "Select Crop Type" (crop_options g);
          line_chart
            (map (fun r => (pd.CropRecord.year r,
                            Lib.np_log10 lib
                              (pd.CropRecord.production r + 1)%float,
                            pd.CropRecord.state r))
               (filter (fun r => String.eqb (pd.CropRecord.crop_type r) c)
                  (df g)));
          st_subheader "Distribution of Total Production by State";
          histogram
            (map (fun s =>
                    Lib.np_log10 lib
                      (Lib.pd_sum lib
                         (map pd.CropRecord.production
                            (filter
                               (fun r =>
                                  String.eqb (pd.CropRecord.state r) s)
                               (df g))) + 1)%float)
               (state_options g)) 10;
          caption
            "Log scale used due to high production skewness (billions vs thousands)."])%list /\
      filter (fun r => String.eqb (pd.CropRecord.crop_type r) c) (df g)
      <> [] /\
      snd (run lib predict u g) = Ok tt.
Proof.
  intros E lib predict u g Hpage Hdf.
  assert (Hc0 : map pd.CropRecord.crop_type (df g) <> [])
    by (destruct (df g); [congruence | discriminate]).
  destruct (selectbox_of_column _ (crop_selection_picked u) Hc0)
    as (c & Hc & Hcin).
  exists c. split; [exact Hc|]. split; [exact Hcin|].
  unfold run. rewrite Hpage.
  destruct (exploratory_data_analysis_run lib u g) as (Htrace & Hok & _).
  unfold crop_options in Htrace at 2. rewrite Hc in Htrace.
  split; [exact Htrace|]. split; [|exact Hok].
  apply in_map_iff in Hcin. destruct Hcin as (r & Hr & Hin).
  intros Hnil.
  assert (Hf : In r (filter
                       (fun r => String.eqb (pd.CropRecord.crop_type r) c)
                       (df g))).
  { apply filter_In. split; [exact Hin|]. now apply String.eqb_eq. }
  rewrite Hnil in Hf. destruct Hf.
Qed.

Lemma X4_line_chart_on_sample :
  page (Build_UserInput ExploratoryDataAnalysis (Some 1%nat)
          None None None false) = ExploratoryDataAnalysis /\
  stub.crops_2017_2022 <> [] /\
  exists c : string,
    st.selectbox (crop_options (loaded stub.crops_2017_2022 stub.clusters tt))
      (Some 1%nat) = PStr c /\
    snd (run stub.lib (stub.returning [PFloat 0])
           (Build_UserInput ExploratoryDataAnalysis (Some 1%nat)
              None None None false)
           (loaded stub.crops_2017_2022 stub.clusters tt)) = Ok tt.
Proof.
  assert (H : stub.crops_2017_2022 <> []) by discriminate.
  split; [reflexivity|]. split; [exact H|].
  destruct (line_chart_one_point_per_record unit stub.lib
              (stub.returning [PFloat 0])
              (Build_UserInput ExploratoryDataAnalysis (Some 1%nat)
                 None None None false)
              (loaded stub.crops_2017_2022 stub.clusters tt) eq_refl H)
    as (c & Hc & _ & _ & _ & Hok).
  exists c. split; [exact Hc | exact Hok].
Defined.

(** ** Pages without crop data *)

(** X10. With an empty crop table the prediction page renders its heading,
    its text and two select boxes without options, binds [state] and [crop]
    to [None], and then stops with the [ValueError] of [int(nan)] at line
    162, whether or not the button was pressed: no slider and no button are
    shown, the model is not called and [year], [input_df],
    [log_prediction] and [prediction] stay unbound.  The exploratory page
    ends normally on the same table: its select box has no options and its
    two charts get no rows. *)
Theorem pages_without_crop_data :
  forall (Estimator : Type) (lib : Lib.t)
    (predict : Estimator -> pd.DataFrame -> Estimator * result (list pyval))
    (u : UserInput) (g : Globals Estimator),
    df g = [] ->
    (page u = ProductionPrediction ->
     let out := run lib predict u g in
     snd out = Raise ValueError_nan /\
     trace (fst out)
     = (trace g ++
        [st_header "Crop Production Prediction (Random Forest Model)";
         st_markdown "
    Model trained using log-transformed production values  
    Final model selected based on lowest RMSE and highest R².
    ";
         st_columns 3;
         st_selectbox "State" [];
         st_selectbox "Crop Type" []])%list /\
     state (fst out) = Some PNone /\
     crop (fst out) = Some PNone /\
     year (fst out) = year g /\
     input_df (fst out) = input_df g /\
     log_prediction (fst out) = log_prediction g /\
     prediction (fst out) = prediction g /\
     model (fst out) = model g) /\
    (page u = ExploratoryDataAnalysis ->
     let out := run lib predict u g in
     snd out = Ok tt /\
     trace (fst out)
     = (trace g ++
        [st_header "Production Trend Analysis";
         st_selectbox "Select Crop Type" [];
         line_chart [];
         st_subheader "Distribution of Total Production by State";
         histogram [] 10;
         caption
           "Log scale used due to high production skewness (billions vs thousands)."])%list).
Proof.
  intros E lib predict u g Hdf. unfold run. split; intros ->; cbv zeta.
  - rewrite production_prediction_run, prediction_widgets_run.
    destruct (year_bounds_without_data g Hdf) as [-> _].
    unfold state_options, crop_options. rewrite Hdf. simpl.
    rewrite <- !app_assoc. simpl. now repeat split.
  - destruct (exploratory_data_analysis_run lib u g) as (Htrace & Hok & _).
    split; [exact Hok|].
    rewrite Htrace. unfold state_options, crop_options. now rewrite Hdf.
Qed.

Lemma X10_no_data_prediction_page :
  df (loaded [] stub.clusters tt) = [] /\
  page (Build_UserInput ProductionPrediction None None None None true)
  = ProductionPrediction /\
  snd (run stub.lib (stub.returning [PFloat 0])
         (Build_UserInput ProductionPrediction None None None None true)
         (loaded [] stub.clusters tt))
  = Raise ValueError_nan.
Proof.
  split; [reflexivity|]. split; [reflexivity|].
  exact (proj1 (proj1
    (pages_without_crop_data unit stub.lib (stub.returning [PFloat 0])
       (Build_UserInput ProductionPrediction None None None None true)
       (loaded [] stub.clusters tt) eq_refl) eq_refl)).
Defined.

(** ** The year of a request (line 162) *)

(** X13. With crop data whose first observed year is at most 2023 and whose
    last observed year is at least 2020, every request of a run has its year
    between the first observed year and the last one plus three; all years
    of the table lie between the first and the last observed year. *)
Theorem year_within_three_years_of_data :
  forall (Estimator : Type) (lib : Lib.t)
    (predict : Estimator -> pd.DataFrame -> Estimator * result (list pyval))
    (u : UserInput) (g : Globals Estimator) (first last : Z),
    pd.min (map pd.CropRecord.year (df g)) = Some first ->
    pd.max (map pd.CropRecord.year (df g)) = Some last ->
    (first <= 2023)%Z ->
    (2020 <= last)%Z ->
    (forall r, In r (df g) -> (first <= pd.CropRecord.year r <= last)%Z) /\
    exists requests : list pd.DataFrame,
      predict_calls (trace (fst (run lib predict u g)))
      = (predict_calls (trace g) ++ requests)%list /\
      Forall
        (fun d =>
           exists y : Z,
             pd.column "year" d = Some [PInt y] /\
             (first <= y <= last + 3)%Z)
        requests.
Proof.
  intros E lib predict u g first last Hmin Hmax Hfirst Hlast.
  assert (Hdefault : (first <= 2023 <= last + 3)%Z) by lia.
  destruct (requests_within_three_years lib predict u g first last
              Hmin Hmax Hdefault) as [Hyears Hreq].
  split; [exact Hyears|].
  destruct (page u) eqn:Hpage;
    try (exists []; split; [|constructor];
         rewrite app_nil_r; apply other_pages_calls; congruence).
  unfold run. rewrite Hpage. exact Hreq.
Qed.

Lemma X13_sample_years :
  (2017 <= 2023)%Z /\ (2020 <= 2022)%Z /\
  exists requests : list pd.DataFrame,
    predict_calls
      (trace (fst (run stub.lib (stub.returning [PFloat 0])
                     (Build_UserInput ProductionPrediction
                        None None None (Some 2030%Z) true)
                     (loaded stub.crops_2017_2022 stub.clusters tt))))
    = requests /\
    Forall
      (fun d =>
         exists y : Z,
           pd.column "year" d = Some [PInt y] /\ (2017 <= y <= 2022 + 3)%Z)
      requests.
Proof.
  assert (H1 : (2017 <= 2023)%Z) by lia.
  assert (H2 : (2020 <= 2022)%Z) by lia.
  split; [exact H1|]. split; [exact H2|].
  destruct (year_within_three_years_of_data unit stub.lib
              (stub.returning [PFloat 0])
              (Build_UserInput ProductionPrediction
                 None None None (Some 2030%Z) true)
              (loaded stub.crops_2017_2022 stub.clusters tt)
              2017%Z 2022%Z eq_refl eq_refl H1 H2)
    as (_ & requests & Hcalls & Hall).
  exists requests. split; [exact Hcalls | exact Hall].
Defined.

(** ** Loading and caching (lines 18-32) *)

Import script.

(** X14. The script renders nothing and calls no page unless the crop
    table, the cluster table and the model are all available: if a run
    renders an event or ends normally, all three cache entries are filled
    afterwards. The crop table is loaded first: when it is not cached and
    reading it raises, the run stops with that exception and the cache is as
    before, so the other two files were not loaded. *)
Theorem nothing_rendered_unless_all_loaded :
  forall (Estimator : Type) (lib : Lib.t)
    (predict : Estimator -> pd.DataFrame -> Estimator * result (list pyval))
    (disk : Disk Estimator) (u : UserInput) (c : Cache Estimator),
    let out := main lib predict disk u c in
    (snd (fst out) <> [] \/ snd out = Ok tt ->
     exists d cl m,
       data_entry (fst (fst out)) = Some d /\
       clusters_entry (fst (fst out)) = Some cl /\
       model_entry (fst (fst out)) = Some m) /\
    (forall e,
        data_entry c = None ->
        final_crop_csv disk = Raise e ->
        out = (c, [], Raise e)).
Proof.
  intros E lib predict disk u c out. subst out. split.
  - unfold main, load_data, load_clusters, load_model, cached.
    destruct c as [[d|] [cl|] [m|]],
      disk as [[d'|e1] [cl'|e2] [m'|e3] img];
      cbn [data_entry clusters_entry model_entry final_crop_csv
           state_clusters_csv best_model_pkl header_png fst snd];
      try (intros [H|H]; [now contradiction H | discriminate H]);
      match goal with
      | |- context [bind ?h ?k ?g] =>
          destruct (bind h k g) as [g' r]
      end;
      cbn [data_entry clusters_entry model_entry fst snd];
      intros _; now do 3 eexists.
  - intros e Hentry Hdisk.
    unfold main, load_data, cached. rewrite Hentry, Hdisk.
    destruct c as [d cl m]. simpl in Hentry. now subst d.
Qed.

Lemma X14_unreadable_crop_file :
  main stub.lib (stub.returning [PFloat 0])
    (Build_Disk (Raise (Exn "FileNotFoundError" "data/final_crop.csv"))
       (Ok stub.clusters) (Ok tt) (Ok tt))
    (Build_UserInput ClusterInsights None None None None false)
    empty_cache
  = (empty_cache, [], Raise (Exn "FileNotFoundError" "data/final_crop.csv")).
Proof.
  exact (proj2
    (nothing_rendered_unless_all_loaded unit stub.lib
       (stub.returning [PFloat 0])
       (Build_Disk (Raise (Exn "FileNotFoundError" "data/final_crop.csv"))
          (Ok stub.clusters) (Ok tt) (Ok tt))
       (Build_UserInput ClusterInsights None None None None false)
       empty_cache)
    (Exn "FileNotFoundError" "data/final_crop.csv") eq_refl eq_refl).
Defined.

(** A run with a warm cache reads the two tables and the model from the
    cache and nothing from the three files. *)
Lemma main_with_warm_cache
  {Estimator : Type} (lib : Lib.t)
  (predict : Estimator -> pd.DataFrame -> Estimator * result (list pyval))
  (disk : Disk Estimator) (u : UserInput)
  (d : list pd.CropRecord.t) (cl : list pd.ClusterSummary.t) (m : Estimator) :
  main lib predict disk u (Build_Cache (Some d) (Some cl) (Some m))
  = (Build_Cache (Some d) (Some cl)
       (Some (model
                (fst (bind (header (header_png disk))
                        (fun _ => run lib predict u) (loaded d cl m))))),
     trace (fst (bind (header (header_png disk))
                   (fun _ => run lib predict u) (loaded d cl m))),
     snd (bind (header (header_png disk))
            (fun _ => run lib predict u) (loaded d cl m))).
Proof.
  unfold main, load_data, load_clusters, load_model, cached. simpl.
  now destruct (bind (header (header_png disk))
                  (fun _ => run lib predict u) (loaded d cl m)).
Qed.

Lemma main_with_cold_cache
  {Estimator : Type} (lib : Lib.t)
  (predict : Estimator -> pd.DataFrame -> Estimator * result (list pyval))
  (disk : Disk Estimator) (u : UserInput)
  (d : list pd.CropRecord.t) (cl : list pd.ClusterSummary.t) (m : Estimator) :
  final_crop_csv disk = Ok d ->
  state_clusters_csv disk = Ok cl ->
  best_model_pkl disk = Ok m ->
  main lib predict disk u empty_cache
  = main lib predict disk u (Build_Cache (Some d) (Some cl) (Some m)).
Proof.
  intros Hd Hcl Hm.
  unfold main, load_data, load_clusters, load_model, cached. simpl.
  now rewrite Hd, Hcl, Hm.
Qed.

(** X15. Files are read once. After a first run that could read the two
    tables and the model, the cache holds these two tables, and every later
    run works on them whatever the three files contain by then: two disks
    that differ only in these files give the same run. The model of the
    later run is the estimator the first run left in the cache: the loaded
    one if the header image could not be shown, else the one the first
    run's page left. *)
Theorem later_runs_use_first_load :
  forall (Estimator : Type) (lib : Lib.t)
    (predict : Estimator -> pd.DataFrame -> Estimator * result (list pyval))
    (disk1 disk2 disk2' : Disk Estimator) (u1 u2 : UserInput)
    (d : list pd.CropRecord.t) (cl : list pd.ClusterSummary.t)
    (m : Estimator),
    final_crop_csv disk1 = Ok d ->
    state_clusters_csv disk1 = Ok cl ->
    best_model_pkl disk1 = Ok m ->
    header_png disk2 = header_png disk2' ->
    let c1 := fst (fst (main lib predict disk1 u1 empty_cache)) in
    let c2 := fst (fst (main lib predict disk2 u2 c1)) in
    data_entry c1 = Some d /\ clusters_entry c1 = Some cl /\
    data_entry c2 = Some d /\ clusters_entry c2 = Some cl /\
    main lib predict disk2 u2 c1 = main lib predict disk2' u2 c1 /\
    (forall e, header_png disk1 = Raise e -> model_entry c1 = Some m) /\
    (header_png disk1 = Ok tt ->
     model_entry c1
     = Some (model (fst (run lib predict u1
                           (fst (header (Ok tt) (loaded d cl m))))))).
Proof.
  intros E lib predict disk1 disk2 disk2' u1 u2 d cl m Hd Hcl Hm Himg c1 c2.
  subst c2 c1.
  rewrite (main_with_cold_cache lib predict disk1 u1 d cl m Hd Hcl Hm).
  rewrite (main_with_warm_cache lib predict disk1 u1 d cl m).
  cbn [fst snd].
  rewrite !main_with_warm_cache. rewrite Himg.
  cbn [fst snd data_entry clusters_entry model_entry].
  do 5 (split; [reflexivity|]). split.
  - intros e He. rewrite He. reflexivity.
  - intros Hok. rewrite Hok. unfold bind at 1.
    destruct (header (Ok tt) (loaded d cl m)) as [g1 r1] eqn:Hh.
    assert (Hr1 : r1 = Ok tt).
    { unfold header, bind, eval, emit, assign in Hh. simpl in Hh.
      now inversion Hh. }
    now subst r1.
Qed.

Lemma X15_counting_model_across_runs :
  model_entry
    (fst (fst
             (main stub.lib (stub.counting [PFloat 0])
                (Build_Disk (Ok stub.crops_2017_2022) (Ok stub.clusters)
                   (Ok 0%nat) (Ok tt))
                (Build_UserInput ProductionPrediction None None None None true)
                empty_cache)))
  = Some 1%nat /\
  data_entry
    (fst (fst
       (main stub.lib (stub.counting [PFloat 0])
          (Build_Disk (Ok stub.crops_2010) (Ok []) (Ok 7%nat) (Ok tt))
          (Build_UserInput ProductionPrediction None None None None true)
          (fst (fst
             (main stub.lib (stub.counting [PFloat 0])
                (Build_Disk (Ok stub.crops_2017_2022) (Ok stub.clusters)
                   (Ok 0%nat) (Ok tt))
                (Build_UserInput ProductionPrediction None None None None true)
                empty_cache))))))
  = Some stub.crops_2017_2022 /\
  main stub.lib (stub.counting [PFloat 0])
    (Build_Disk (Ok stub.crops_2010) (Ok []) (Ok 7%nat) (Ok tt))
    (Build_UserInput ProductionPrediction None None None None true)
    (fst (fst
             (main stub.lib (stub.counting [PFloat 0])
                (Build_Disk (Ok stub.crops_2017_2022) (Ok stub.clusters)
                   (Ok 0%nat) (Ok tt))
                (Build_UserInput ProductionPrediction None None None None true)
                empty_cache)))
  = main stub.lib (stub.counting [PFloat 0])
      (Build_Disk (Raise (Exn "FileNotFoundError" "data/final_crop.csv"))
       (Ok stub.clusters) (Ok 3%nat) (Ok tt))
      (Build_UserInput ProductionPrediction None None None None true)
      (fst (fst
             (main stub.lib (stub.counting [PFloat 0])
                (Build_Disk (Ok stub.crops_2017_2022) (Ok stub.clusters)
                   (Ok 0%nat) (Ok tt))
                (Build_UserInput ProductionPrediction None None None None true)
                empty_cache))).
Proof.
  destruct (later_runs_use_first_load nat stub.lib (stub.counting [PFloat 0])
              (Build_Disk (Ok stub.crops_2017_2022) (Ok stub.clusters)
                   (Ok 0%nat) (Ok tt))
              (Build_Disk (Ok stub.crops_2010) (Ok []) (Ok 7%nat) (Ok tt))
              (Build_Disk (Raise (Exn "FileNotFoundError" "data/final_crop.csv"))
       (Ok stub.clusters) (Ok 3%nat) (Ok tt))
              (Build_UserInput ProductionPrediction None None None None true)
              (Build_UserInput ProductionPrediction None None None None true)
              stub.crops_2017_2022 stub.clusters 0%nat
              eq_refl eq_refl eq_refl eq_refl)
    as (_ & _ & Hd2 & _ & Hsame & _ & Hmodel).
  split; [|split; [exact Hd2 | exact Hsame]].
  rewrite (Hmodel eq_refl). reflexivity.
Defined.
